(** * notify-django-app: the notification dispatcher

    A shallow embedding of [celery_app/tasks.py] (the task
    [send_notification] and its helpers), of
    [notification_app/services/services.py] (the three channel senders of
    [NotificationService]) and of the tables of
    [notification_app/models.py], followed by the properties the
    specification states about them.

    Conventions of the embedding.
    - A Python [str] is a [string] holding its UTF-8 bytes.  The two
      patterns of the source only name ASCII characters; a byte of a
      multi-byte code point is neither ["@"] nor ["."], so matching
      [[^@]+@[^@]+\.[^@]+] on bytes and on code points agree.  [\D] is
      read as "not an ASCII digit".
    - [Optional[str]] is [option string]; [None] is Python's [None].
    - Code that can raise lives in a state-and-exception monad.  A raise
      keeps the state reached so far: the task runs outside any database
      transaction.
    - The outside world (SMTP server, Twilio, Telegram) is a parameter: a
      [Transport] answers each call from the history of calls made before
      it.  Every call is appended to that history, which is how "no
      network call was made" is stated.
    - [settings] is a parameter as well (the project's settings module is
      not among the sources).
    - Calls to [logger] and the [created_at] timestamps are left out. *)

From Stdlib Require Import ZArith Ascii String List Bool Lia.
From stdpp Require Import base option list gmap strings pretty.

(* ================================================================== *)
(** * Part I: the program                                               *)
(* ================================================================== *)

(** ** Python values *)

Module Py.

(** Truth value of an [Optional[str]]: [None] and [""] are false. *)
Definition truthy (v : option string) : bool :=
  match v with
  | None => false
  | Some s => negb (String.eqb s "")
  end.

(** The characters of a string value; consulted only after a
    truthiness test has excluded [None]. *)
Definition text (v : option string) : string :=
  match v with
  | None => ""
  | Some s => s
  end.

(** [a or b] on optional lists: the left operand when it is truthy (a
    non-empty list), else the right one. *)
Definition or_list {A} (a : option (list A)) (b : list A) : list A :=
  match a with
  | Some (x :: l) => x :: l
  | Some [] | None => b
  end.

(** Truth value of an [Optional[int]]: [None] and [0] are false. *)
Definition truthy_int (v : option Z) : bool :=
  match v with
  | None => false
  | Some z => negb (z =? 0)%Z
  end.

(** The exceptions the program can meet, by the classes its handlers
    tell apart.  All of them derive from [Exception]. *)
Inductive Exn :=
| DoesNotExist (model : string)
| AttributeError (text : string)
| IntegrityError (text : string)
| TwilioRestException (msg text : string)
| RequestException (text : string)
| OtherException (text : string).

(** [str(e)] *)
Definition str (e : Exn) : string :=
  match e with
  | DoesNotExist model => model +:+ " matching query does not exist."
  | AttributeError t | IntegrityError t | RequestException t
  | OtherException t => t
  | TwilioRestException _ t => t
  end.

Inductive Outcome (A : Type) :=
| Ok (a : A)
| Raise (e : Exn).
Arguments Ok {A} a.
Arguments Raise {A} e.

(** Computations over a state [S] that return or raise. *)
Definition M (S A : Type) : Type := S -> Outcome A * S.

Definition ret {S A} (a : A) : M S A := fun s => (Ok a, s).

Definition raise {S A} (e : Exn) : M S A := fun s => (Raise e, s).

Definition bind {S A B} (m : M S A) (k : A -> M S B) : M S B :=
  fun s =>
    match m s with
    | (Ok a, s') => k a s'
    | (Raise e, s') => (Raise e, s')
    end.

(** [try: body  except Exception as e: handler e] *)
Definition try_except {S A} (body : M S A) (handler : Exn -> M S A) : M S A :=
  fun s =>
    match body s with
    | (Ok a, s') => (Ok a, s')
    | (Raise e, s') => handler e s'
    end.

End Py.

Import Py.

(** stdpp's monad notations: [x ← m; k] and [m;; k]. *)
#[global] Instance M_ret {S} : MRet (M S) := fun A => @ret S A.
#[global] Instance M_bind {S} : MBind (M S) := fun A B k m => @bind S A B m k.

(** ** Regular expressions ([import re]) *)

Module Re.

Inductive regex :=
| Void
| Eps
| Atom (cls : ascii -> bool)
| Cat (r1 r2 : regex)
| Alt (r1 r2 : regex)
| Star (r : regex).

(** [r+] *)
Definition Plus (r : regex) : regex := Cat r (Star r).

(** [[^c]] and an escaped or plain literal character. *)
Definition not_char (c : ascii) : ascii -> bool := fun x => negb (Ascii.eqb x c).
Definition char (c : ascii) : ascii -> bool := fun x => Ascii.eqb x c.

(** [\d] and [\D] *)
Definition digit (x : ascii) : bool :=
  ((48 <=? nat_of_ascii x) && (nat_of_ascii x <=? 57))%nat.
Definition non_digit (x : ascii) : bool := negb (digit x).

Fixpoint nullable (r : regex) : bool :=
  match r with
  | Void => false
  | Eps => true
  | Atom _ => false
  | Cat r1 r2 => nullable r1 && nullable r2
  | Alt r1 r2 => nullable r1 || nullable r2
  | Star _ => true
  end.

Fixpoint deriv (c : ascii) (r : regex) : regex :=
  match r with
  | Void | Eps => Void
  | Atom cls => if cls c then Eps else Void
  | Cat r1 r2 =>
      if nullable r1 then Alt (Cat (deriv c r1) r2) (deriv c r2)
      else Cat (deriv c r1) r2
  | Alt r1 r2 => Alt (deriv c r1) (deriv c r2)
  | Star r1 => Cat (deriv c r1) (Star r1)
  end.

(** [re.match(r, s)] as a truth value: the pattern is anchored at the
    start of [s] only, so it is enough that some prefix matches. *)
Fixpoint re_match (r : regex) (s : string) : bool :=
  nullable r ||
  match s with
  | EmptyString => false
  | String c s' => re_match (deriv c r) s'
  end.

(** [re.sub(cls, '', s)] for a one-character class: every character of
    the class is dropped. *)
Fixpoint re_sub_empty (cls : ascii -> bool) (s : string) : string :=
  match s with
  | EmptyString => EmptyString
  | String c s' =>
      if cls c then re_sub_empty cls s' else String c (re_sub_empty cls s')
  end.

(** Every character of the string is in the class. *)
Fixpoint all_chars (cls : ascii -> bool) (s : string) : bool :=
  match s with
  | EmptyString => true
  | String c s' => cls c && all_chars cls s'
  end.

(** The words of a regular expression, to state what [re_match]
    decides. *)
Inductive matches : regex -> string -> Prop :=
| m_eps : matches Eps ""
| m_atom cls c : cls c = true -> matches (Atom cls) (String c "")
| m_cat r1 r2 s1 s2 :
    matches r1 s1 -> matches r2 s2 -> matches (Cat r1 r2) (s1 +:+ s2)
| m_alt_l r1 r2 s : matches r1 s -> matches (Alt r1 r2) s
| m_alt_r r1 r2 s : matches r2 s -> matches (Alt r1 r2) s
| m_star_nil r : matches (Star r) ""
| m_star_cons r s1 s2 :
    matches r s1 -> matches (Star r) s2 -> matches (Star r) (s1 +:+ s2).

End Re.

(** ** [django.conf.settings] *)

Module Conf.

(** A setting is not defined at all, is [None], or is a string. *)
Inductive Setting :=
| Unset
| IsNone
| Str (s : string).

Record Settings := {
  EMAIL_HOST : Setting;
  EMAIL_HOST_USER : Setting;
  DEFAULT_FROM_EMAIL : Setting;
  TWILIO_ACCOUNT_SID : Setting;
  TWILIO_AUTH_TOKEN : Setting;
  TWILIO_PHONE_NUMBER : Setting;
  TELEGRAM_BOT_TOKEN : Setting
}.

(** [getattr(settings, name, default)] *)
Definition getattr_default (v : Setting) (default : option string)
  : option string :=
  match v with
  | Unset => default
  | IsNone => None
  | Str s => Some s
  end.

(** [getattr(settings, name)]: an undefined name raises. *)
Definition getattr {S} (name : string) (v : Setting) : M S (option string) :=
  match v with
  | Unset =>
      raise (AttributeError
               ("'Settings' object has no attribute '" +:+ name +:+ "'"))
  | IsNone => ret None
  | Str s => ret (Some s)
  end.

End Conf.

Import Conf.

(** ** The outside world *)

Module World.

(** One call that leaves the process. *)
Inductive NetCall :=
| smtp_send (subject message : string) (from_email : option string)
            (recipient_list : list string)
| twilio_create (account_sid auth_token body from_ to : string)
| http_post (url chat_id text parse_mode : string) (timeout : Z).

(** The calls made so far, oldest first. *)
Definition Net : Type := list NetCall.

(** A decoded response body: a JSON object, of which the program reads
    the truth value of ["ok"] and the entry ["description"] (absent,
    [null] or a string), or some other JSON value. *)
Inductive Json :=
| JDict (ok : bool) (description : option (option string))
| JOther (type_name : string).

(** An HTTP response: the text of the [HTTPError] that
    [raise_for_status()] raises, if the status is an error, and what
    [json()] gives. *)
Record Response := {
  status_error : option string;
  json : Outcome Json
}.

(** What the three services answer, given the calls made before: each
    call returns or raises.  What a service raises derives from
    [Exception]; an interrupt of the process is outside the model. *)
Record Transport := {
  smtp : Net -> string -> string -> option string -> list string
         -> Outcome unit;
  twilio : Net -> string -> string -> string -> string -> string
           -> Outcome string;
  telegram : Net -> string -> string -> string -> string -> Z
             -> Outcome Response
}.

Section Calls.
Context (T : Transport).

(** [django.core.mail.send_mail(..., fail_silently=False)] *)
Definition send_mail (subject message : string) (from_email : option string)
    (recipient_list : list string) : M Net unit :=
  fun w => (smtp T w subject message from_email recipient_list,
            w ++ [smtp_send subject message from_email recipient_list]).

(** [Client(account_sid, auth_token).messages.create(...)]; the value
    is the [sid] of the message object. *)
Definition messages_create (account_sid auth_token body from_ to : string)
  : M Net string :=
  fun w => (twilio T w account_sid auth_token body from_ to,
            w ++ [twilio_create account_sid auth_token body from_ to]).

(** [requests.post(url, json={chat_id, text, parse_mode}, timeout=...)] *)
Definition requests_post (url chat_id text parse_mode : string) (timeout : Z)
  : M Net Response :=
  fun w => (telegram T w url chat_id text parse_mode timeout,
            w ++ [http_post url chat_id text parse_mode timeout]).

End Calls.

(** [response.raise_for_status()] *)
Definition raise_for_status (r : Response) : M Net unit :=
  match status_error r with
  | Some text => raise (RequestException text)
  | None => ret tt
  end.

(** [response.json()] *)
Definition response_json (r : Response) : M Net Json :=
  fun s => (json r, s).

(** [result.get("ok")], as a truth value. *)
Definition get_ok (result : Json) : M Net bool :=
  match result with
  | JDict ok _ => ret ok
  | JOther ty =>
      raise (AttributeError ("'" +:+ ty +:+ "' object has no attribute 'get'"))
  end.

(** [result.get("description", default)] *)
Definition get_description (result : Json) (default : string)
  : M Net (option string) :=
  match result with
  | JDict _ None => ret (Some default)
  | JDict _ (Some v) => ret v
  | JOther ty =>
      raise (AttributeError ("'" +:+ ty +:+ "' object has no attribute 'get'"))
  end.

End World.

Import World.

(** ** [notification_app/services/services.py] *)

Module NotificationService.

(** [r"[^@]+@[^@]+\.[^@]+"] *)
Definition email_pattern : Re.regex :=
  Re.Cat (Re.Plus (Re.Atom (Re.not_char "@")))
    (Re.Cat (Re.Atom (Re.char "@"))
       (Re.Cat (Re.Plus (Re.Atom (Re.not_char "@")))
          (Re.Cat (Re.Atom (Re.char "."))
             (Re.Plus (Re.Atom (Re.not_char "@")))))).

Section Senders.
Context (settings : Settings) (T : Transport).

(** The test of [EMAIL_BACKEND] in [send_email] only writes to the log
    and is left out. *)
Definition send_email (email : option string) (title message : string)
  : M Net (bool * option string) :=
  try_except
    (if negb (truthy email)
        || negb (Re.re_match email_pattern (text email))
     then mret (false, Some "Некорректный email-адрес")
     else
       let email_host := getattr_default (EMAIL_HOST settings) None in
       let email_user := getattr_default (EMAIL_HOST_USER settings) None in
       if negb (truthy email_host)
          || bool_decide (email_host = Some "smtp.example.com")
          || negb (truthy email_user)
       then mret (false, Some "Настройки SMTP сервера не настроены")
       else
         from_email ← getattr "DEFAULT_FROM_EMAIL"
                        (DEFAULT_FROM_EMAIL settings);
         send_mail T title message from_email [text email];;
         mret (true, None))
    (fun e => mret (false, Some (str e))).

Definition send_sms (phone : option string) (message : string)
  : M Net (bool * option string) :=
  try_except
    (if negb (truthy phone)
     then mret (false, Some "Номер телефона не указан")
     else
       let phone_cleaned := Re.re_sub_empty Re.non_digit (text phone) in
       if (String.length phone_cleaned <? 10)%nat
       then mret (false,
                  Some ("Некорректный формат номера: " +:+ text phone))
       else
         account_sid ← getattr "TWILIO_ACCOUNT_SID"
                         (TWILIO_ACCOUNT_SID settings);
         auth_token ← getattr "TWILIO_AUTH_TOKEN"
                        (TWILIO_AUTH_TOKEN settings);
         from_number ← getattr "TWILIO_PHONE_NUMBER"
                         (TWILIO_PHONE_NUMBER settings);
         if negb (truthy account_sid) || negb (truthy auth_token)
            || negb (truthy from_number)
         then mret (false, Some "Не настроены параметры Twilio SMS-сервиса")
         else
           messages_create T (text account_sid) (text auth_token) message
             (text from_number) ("+" +:+ phone_cleaned);;
           mret (true, None))
    (fun e =>
       match e with
       | TwilioRestException msg _ =>
           mret (false, Some ("Ошибка Twilio: " +:+ msg))
       | _ => mret (false, Some (str e))
       end).

Definition send_telegram (chat_id : option string) (message : string)
  : M Net (bool * option string) :=
  try_except
    (if negb (truthy chat_id)
     then mret (false, Some "ID чата Telegram не указан")
     else
       bot_token ← getattr "TELEGRAM_BOT_TOKEN"
                       (TELEGRAM_BOT_TOKEN settings);
       if negb (truthy bot_token)
       then mret (false, Some "Не настроен токен Telegram бота")
       else
         let api_url := "https://api.telegram.org/bot" +:+ text bot_token
                        +:+ "/sendMessage" in
         response ← requests_post T api_url (text chat_id) message "HTML" 10;
         raise_for_status response;;
         result ← response_json response;
         ok ← get_ok result;
         if (ok : bool) then mret (true, None)
         else
           error_description ← get_description result "Неизвестная ошибка";
           mret (false, error_description))
    (fun e =>
       match e with
       | RequestException _ =>
           mret (false, Some ("Ошибка сервиса Telegram: " +:+ str e))
       | _ => mret (false, Some (str e))
       end).

End Senders.

End NotificationService.

(** ** [notification_app/models.py] *)

(** [NotificationChannel]: a [TextChoices] member compares equal to its
    value, a plain string. *)
Module NotificationChannel.
Definition EMAIL : string := "email".
Definition SMS : string := "sms".
Definition TELEGRAM : string := "telegram".
End NotificationChannel.

Module User.
Record t := { id : Z; username : string }.
End User.

Module UserProfile.
Record t := {
  phone_number : option string;
  email : option string;
  telegram_chat_id : option string
}.
End UserProfile.

Module Notification.
Record t := {
  id : Z;
  user : Z;
  title : string;
  message : string;
  is_delivered : bool
}.

(** The object after [self.is_delivered = v]. *)
Definition with_is_delivered (n : t) (v : bool) : t :=
  {| id := id n; user := user n; title := title n; message := message n;
     is_delivered := v |}.
End Notification.

Module NotificationLog.
Record t := {
  notification : Z;
  channel : string;
  status : bool;
  error_message : option string
}.
End NotificationLog.

(** The tables, the network history, and one ghost field. *)
Module Db.

Record State := {
  (** [User], by primary key *)
  users : gmap Z User.t;
  (** [UserProfile], by the id of its user (a one-to-one field: at most
      one row per user) *)
  profiles : gmap Z UserProfile.t;
  (** [Notification], by primary key, and the next key of its sequence *)
  notifications : gmap Z Notification.t;
  next_notification_id : Z;
  (** [NotificationLog], in insertion order *)
  logs : list NotificationLog.t;
  (** the calls that left the process *)
  network : Net;
  (** ghost: the channels handed to [_send_by_channel], in call order *)
  tried : list string
}.

Definition set_notifications (st : State) (m : gmap Z Notification.t)
    (next : Z) : State :=
  {| users := users st; profiles := profiles st;
     notifications := m; next_notification_id := next;
     logs := logs st; network := network st; tried := tried st |}.

Definition add_log (st : State) (l : NotificationLog.t) : State :=
  {| users := users st; profiles := profiles st;
     notifications := notifications st;
     next_notification_id := next_notification_id st;
     logs := logs st ++ [l]; network := network st; tried := tried st |}.

Definition set_network (st : State) (w : Net) (called : list string) : State :=
  {| users := users st; profiles := profiles st;
     notifications := notifications st;
     next_notification_id := next_notification_id st;
     logs := logs st; network := w; tried := tried st ++ called |}.

(** [Model.objects.get(...)]: the row, or [Model.DoesNotExist]. *)
Definition objects_get {A} (model : string) (table : State -> gmap Z A)
    (key : Z) : M State A :=
  fun st =>
    match table st !! key with
    | Some row => (Ok row, st)
    | None => (Raise (DoesNotExist model), st)
    end.

(** [try: x = get  except Model.DoesNotExist: handler], then [k x]. *)
Definition try_get {A B} (model : string) (get : M State A)
    (handler : M State B) (k : A -> M State B) : M State B :=
  fun st =>
    match get st with
    | (Ok a, st') => k a st'
    | (Raise (DoesNotExist m), st') =>
        if String.eqb m model then handler st'
        else (Raise (DoesNotExist m), st')
    | (Raise e, st') => (Raise e, st')
    end.

(** [Notification.objects.create(user=, title=, message=)]: a new row
    with the next key and the default [is_delivered=False]. *)
Definition Notification_objects_create (user : User.t) (title message : string)
  : M State Notification.t :=
  fun st =>
    let n := {| Notification.id := next_notification_id st;
                Notification.user := User.id user;
                Notification.title := title;
                Notification.message := message;
                Notification.is_delivered := false |} in
    (Ok n, set_notifications st (<[Notification.id n := n]> (notifications st))
                             (next_notification_id st + 1)).

(** [notification.is_delivered = v], where [notification] may be
    [None]. *)
Definition setattr_is_delivered (notification : option Notification.t)
    (v : bool) : M State (option Notification.t) :=
  match notification with
  | Some n => mret (Some (Notification.with_is_delivered n v))
  | None =>
      raise (AttributeError
               "'NoneType' object has no attribute 'is_delivered'")
  end.

(** [notification.save()]: the row of that key is overwritten. *)
Definition save (notification : option Notification.t) : M State unit :=
  match notification with
  | Some n =>
      fun st =>
        (Ok tt, set_notifications st
                  (<[Notification.id n := n]> (notifications st))
                  (next_notification_id st))
  | None => raise (AttributeError "'NoneType' object has no attribute 'save'")
  end.

(** [notification.id] *)
Definition getattr_id (notification : option Notification.t) : M State Z :=
  match notification with
  | Some n => mret (Notification.id n)
  | None => raise (AttributeError "'NoneType' object has no attribute 'id'")
  end.

(** [NotificationLog.objects.create(notification=, channel=, status=,
    error_message=)].  The foreign key is declared without [null=True]:
    a row without a notification is refused by the database (the text of
    the error is the database's). *)
Definition NotificationLog_objects_create
    (notification : option Notification.t) (channel : string) (status : bool)
    (error_message : option string) : M State unit :=
  match notification with
  | Some n =>
      fun st =>
        (Ok tt, add_log st {| NotificationLog.notification := Notification.id n;
                              NotificationLog.channel := channel;
                              NotificationLog.status := status;
                              NotificationLog.error_message := error_message |})
  | None =>
      raise (IntegrityError
               "NOT NULL constraint failed: notification_app_notificationlog.notification_id")
  end.

End Db.

Import Db.

(** ** [celery_app/tasks.py] *)

(** The dictionary the task returns; a key that is not set is [None]. *)
Module Result.
Record t := {
  status : string;
  notification_id : option Z;
  channel : option string;
  message : option string
}.
End Result.

Module Tasks.

Definition _get_available_channels (profile : UserProfile.t) : list string :=
  let channels := [] in
  let channels :=
    if truthy (UserProfile.email profile)
    then channels ++ [NotificationChannel.EMAIL] else channels in
  let channels :=
    if truthy (UserProfile.phone_number profile)
    then channels ++ [NotificationChannel.SMS] else channels in
  let channels :=
    if truthy (UserProfile.telegram_chat_id profile)
    then channels ++ [NotificationChannel.TELEGRAM] else channels in
  channels.

(** The key of the lookup is read only once the test [if notification_id]
    has passed, so only when an id other than [0] was given. *)
Definition _get_or_create_notification (user : User.t) (title message : string)
    (notification_id : option Z) : M State (option Notification.t) :=
  if truthy_int notification_id
  then
    try_get "Notification"
      (objects_get "Notification" notifications (default 0%Z notification_id))
      (mret None)
      (fun n => mret (Some n))
  else
    n ← Notification_objects_create user title message;
    mret (Some n).

Section Dispatch.
Context (settings : Settings) (T : Transport).

Definition _send_by_channel (channel : string) (profile : UserProfile.t)
    (title message : string) : M Net (bool * option string) :=
  if String.eqb channel NotificationChannel.EMAIL then
    if negb (truthy (UserProfile.email profile))
    then mret (false, Some "Email пользователя не указан")
    else NotificationService.send_email settings T
           (UserProfile.email profile) title message
  else if String.eqb channel NotificationChannel.SMS then
    if negb (truthy (UserProfile.phone_number profile))
    then mret (false, Some "Номер телефона пользователя не указан")
    else NotificationService.send_sms settings T
           (UserProfile.phone_number profile) message
  else if String.eqb channel NotificationChannel.TELEGRAM then
    if negb (truthy (UserProfile.telegram_chat_id profile))
    then mret (false, Some "Telegram ID пользователя не указан")
    else NotificationService.send_telegram settings T
           (UserProfile.telegram_chat_id profile) message
  else mret (false, Some ("Неизвестный канал отправки: " +:+ channel)).

(** The call [_send_by_channel(channel, profile, title, message)] as
    the task makes it: the sender works on the network, and the
    channel is noted in [tried]. *)
Definition call_send_by_channel (channel : string) (profile : UserProfile.t)
    (title message : string) : M State (bool * option string) :=
  fun st =>
    let '(r, w) := _send_by_channel channel profile title message
                     (network st) in
    (r, set_network st w [channel]).

(** [notification.is_delivered = v; notification.save(); return {...}]:
    the ending shared by every branch once the notification is at
    hand. *)
Definition finish (notification : option Notification.t) (v : bool)
    (result : Z -> Result.t) : M State Result.t :=
  notification ← setattr_is_delivered notification v;
  save notification;;
  nid ← getattr_id notification;
  mret (result nid).

Definition success_result (channel : string) (nid : Z) : Result.t :=
  {| Result.status := "success"; Result.notification_id := Some nid;
     Result.channel := Some channel; Result.message := None |}.

Definition error_result (message : string) (nid : Z) : Result.t :=
  {| Result.status := "error"; Result.notification_id := Some nid;
     Result.channel := None; Result.message := Some message |}.

(** [for channel in priority_channels: ...] and the lines after the
    loop. *)
Fixpoint for_channel_in (priority_channels : list string)
    (notification : option Notification.t) (profile : UserProfile.t)
    (title message : string) : M State Result.t :=
  match priority_channels with
  | channel :: rest =>
      r ← call_send_by_channel channel profile title message;
      let '(success, error_msg) := (r : bool * option string) in
      NotificationLog_objects_create notification channel success error_msg;;
      if success
      then finish notification true (success_result channel)
      else for_channel_in rest notification profile title message
  | [] =>
      finish notification false
        (error_result "Не удалось доставить ни по одному каналу")
  end.

Definition send_notification (user_id : Z) (title message : string)
    (channels : option (list string)) (notification_id : option Z)
  : M State Result.t :=
  try_get "User" (objects_get "User" users user_id)
    (mret {| Result.status := "error"; Result.notification_id := None;
             Result.channel := None;
             Result.message :=
               Some ("Пользователь с ID " +:+ pretty user_id
                     +:+ " не найден") |})
    (fun user =>
       notification ←
         _get_or_create_notification user title message notification_id;
       try_get "UserProfile"
         (objects_get "UserProfile" profiles (User.id user))
         (finish notification false
            (error_result "Профиль пользователя не найден"))
         (fun profile =>
            let priority_channels :=
              or_list channels (_get_available_channels profile) in
            match priority_channels with
            | [] =>
                finish notification false
                  (error_result "Нет доступных каналов для отправки")
            | _ :: _ =>
                for_channel_in priority_channels notification profile
                  title message
            end)).

End Dispatch.

End Tasks.

(** ** [notification_app/admin.py] *)

(** The keyword arguments of one [send_notification.delay(...)]. *)
Module Job.
Record t := {
  user_id : Z;
  title : string;
  message : string;
  channels : list string;
  notification_id : Z
}.
End Job.

(** A [Notification] instance in the hands of the admin: [pk] is [None]
    until its first [save()]. *)
Module Obj.
Record t := {
  pk : option Z;
  user : Z;
  title : string;
  message : string;
  is_delivered : bool
}.
End Obj.

Module Admin.

(** The levels of [message_user]; the default is [INFO]. *)
Inductive Level := INFO | WARNING | ERROR.

(** What an admin action works on: the database, the jobs waiting in the
    task queue (oldest first), and the notices shown to the administrator
    (oldest first). *)
Record Site := {
  db : State;
  queue : list Job.t;
  messages : list (Level * string)
}.

(** The message broker: given the jobs already queued, it takes the job
    ([None]) or the publication raises. *)
Definition Broker : Type := list Job.t -> Job.t -> option Exn.

(** A computation on the database alone, run from the admin. *)
Definition on_db {A} (m : M State A) : M Site A :=
  fun s =>
    (fst (m (db s)),
     {| db := snd (m (db s)); queue := queue s; messages := messages s |}).

(** [self.message_user(request, text, level=level)] *)
Definition message_user (text : string) (level : Level) : M Site unit :=
  fun s =>
    (Ok tt, {| db := db s; queue := queue s;
               messages := messages s ++ [(level, text)] |}).

(** [obj.save()], which is all [super().save_model(...)] does: a new row
    with the next key when [pk] is [None], else the row of that key is
    overwritten.  The value is the instance, which now has its key. *)
Definition model_save (obj : Obj.t) : M State Notification.t :=
  fun st =>
    match Obj.pk obj with
    | None =>
        let n := {| Notification.id := next_notification_id st;
                    Notification.user := Obj.user obj;
                    Notification.title := Obj.title obj;
                    Notification.message := Obj.message obj;
                    Notification.is_delivered := Obj.is_delivered obj |} in
        (Ok n, set_notifications st
                 (<[Notification.id n := n]> (notifications st))
                 (next_notification_id st + 1))
    | Some i =>
        let n := {| Notification.id := i;
                    Notification.user := Obj.user obj;
                    Notification.title := Obj.title obj;
                    Notification.message := Obj.message obj;
                    Notification.is_delivered := Obj.is_delivered obj |} in
        (Ok n, set_notifications st
                 (<[Notification.id n := n]> (notifications st))
                 (next_notification_id st))
    end.

(** [NotificationLog.objects.filter(notification=notification)] *)
Definition logs_of (notification : Notification.t) : M State (list NotificationLog.t) :=
  fun st =>
    (Ok (filter (fun row =>
                   NotificationLog.notification row = Notification.id notification)
           (logs st)), st).

(** [NotificationAdmin._get_available_channels(user)]; the user is given
    by its key. *)
Definition _get_available_channels (user : Z) : M State (list string) :=
  let available_channels := [] in
  try_get "UserProfile" (objects_get "UserProfile" profiles user)
    (mret available_channels)
    (fun profile =>
       let available_channels :=
         if truthy (UserProfile.email profile)
         then available_channels ++ [NotificationChannel.EMAIL]
         else available_channels in
       let available_channels :=
         if truthy (UserProfile.phone_number profile)
         then available_channels ++ [NotificationChannel.SMS]
         else available_channels in
       let available_channels :=
         if truthy (UserProfile.telegram_chat_id profile)
         then available_channels ++ [NotificationChannel.TELEGRAM]
         else available_channels in
       mret available_channels).

Section Actions.
(** [distinct] is what the database answers to
    [values_list('channel', flat=True).distinct()] on the channels of the
    selected rows; the order of its answer is the database's. *)
Context (broker : Broker) (distinct : list string -> list string).

(** [send_notification.delay(...)] *)
Definition delay (job : Job.t) : M Site unit :=
  fun s =>
    match broker (queue s) job with
    | None =>
        (Ok tt, {| db := db s; queue := queue s ++ [job];
                   messages := messages s |})
    | Some e => (Raise e, s)
    end.

Definition _send_notification_task (notification : Notification.t)
    (channels : list string) : M Site bool :=
  try_except
    (delay {| Job.user_id := Notification.user notification;
              Job.title := Notification.title notification;
              Job.message := Notification.message notification;
              Job.channels := channels;
              Job.notification_id := Notification.id notification |};;
     message_user "Уведомление поставлено в очередь на отправку" INFO;;
     mret true)
    (fun e =>
       message_user ("Возникла ошибка при отправке: " +:+ str e) ERROR;;
       mret false).

Definition save_model (obj : Obj.t) (change : bool) : M Site unit :=
  obj ← on_db (model_save obj);
  if negb change
  then
    available_channels ←
      on_db (_get_available_channels (Notification.user obj));
    match (available_channels : list string) with
    | [] =>
        message_user
          "Уведомление создано, но не может быть отправлено: нет доступных каналов"
          WARNING
    | _ :: _ =>
        _send_notification_task obj available_channels;;
        mret tt
    end
  else mret tt.

(** The body of [for notification in queryset: ...] and, once the
    selection is exhausted, the value of [count]. *)
Fixpoint resend_each (queryset : list Notification.t) (count : Z) : M Site Z :=
  match queryset with
  | [] => mret count
  | notification :: rest =>
      available_channels ←
        on_db (_get_available_channels (Notification.user notification));
      available_channels ←
        match (available_channels : list string) with
        | [] =>
            logs ← on_db (logs_of notification);
            let previous_channels :=
              distinct (map NotificationLog.channel logs) in
            match previous_channels with
            | [] => mret available_channels
            | _ :: _ => mret previous_channels
            end
        | _ :: _ => mret available_channels
        end;
      match (available_channels : list string) with
      | [] =>
          message_user
            ("Не удалось отправить ID="
             +:+ pretty (Notification.id notification)
             +:+ ": нет доступных каналов") ERROR;;
          resend_each rest count
      | _ :: _ =>
          queued ← _send_notification_task notification available_channels;
          if (queued : bool)
          then resend_each rest (count + 1)%Z
          else resend_each rest count
      end
  end.

Definition resend_notification (queryset : list Notification.t) : M Site unit :=
  count ← resend_each queryset 0%Z;
  message_user
    ("Поставлено в очередь повторных отправок: " +:+ pretty count
     +:+ " уведомлений") INFO.

End Actions.

End Admin.

(** ** Vocabulary of the properties *)

Module Run.
Import Tasks.

(** One attempt as the log sees it: the channel and what its sender
    answered. *)
Definition Attempt : Type := string * (bool * option string).

Definition succeeded (a : Attempt) : bool := fst (snd a).

(** The [NotificationLog] row written for an attempt. *)
Definition to_log (nid : Z) (a : Attempt) : NotificationLog.t :=
  {| NotificationLog.notification := nid;
     NotificationLog.channel := fst a;
     NotificationLog.status := fst (snd a);
     NotificationLog.error_message := snd (snd a) |}.

(** Position, counted from 1, of the first attempt that succeeded. *)
Fixpoint first_success (os : list Attempt) : option nat :=
  match os with
  | [] => None
  | a :: rest => if succeeded a then Some 1 else S <$> first_success rest
  end.

Definition all_failed (os : list Attempt) : bool :=
  forallb (fun a => negb (succeeded a)) os.

Section Attempts.
Context (settings : Settings) (T : Transport) (profile : UserProfile.t)
        (title message : string).

(** What [_send_by_channel] answers for [channel] after the calls [w],
    and the calls made once it is back. *)
Definition attempt (channel : string) (w : Net)
  : (bool * option string) * Net :=
  match _send_by_channel settings T channel profile title message w with
  | (Ok r, w') => (r, w')
  | (Raise e, w') => ((false, Some (str e)), w')
  end.

(** The attempts that trying every channel of [chs] in turn, without
    stopping, would give. *)
Fixpoint outcomes (chs : list string) (w : Net) : list Attempt :=
  match chs with
  | [] => []
  | c :: rest => (c, fst (attempt c w)) :: outcomes rest (snd (attempt c w))
  end.

(** The calls made once every channel of [chs] has been tried. *)
Fixpoint net_after (chs : list string) (w : Net) : Net :=
  match chs with
  | [] => w
  | c :: rest => net_after rest (snd (attempt c w))
  end.

End Attempts.

(** The state once the attempts [os] are tried and logged for
    notification [nid], the network being left at [w]. *)
Definition logged (st : State) (nid : Z) (os : list Attempt) (w : Net) : State :=
  {| users := users st; profiles := profiles st;
     notifications := notifications st;
     next_notification_id := next_notification_id st;
     logs := logs st ++ map (to_log nid) os;
     network := w;
     tried := tried st ++ map fst os |}.

(** The state once [n] is saved with its flag set to [v]. *)
Definition saved (st : State) (n : Notification.t) (v : bool) : State :=
  set_notifications st
    (<[Notification.id n := Notification.with_is_delivered n v]>
       (notifications st))
    (next_notification_id st).

(** A contact field that holds a non-empty string. *)
Definition populated (v : option string) : Prop :=
  exists s, v = Some s /\ s <> "".

Definition known_channel (c : string) : bool :=
  String.eqb c NotificationChannel.EMAIL || String.eqb c NotificationChannel.SMS
  || String.eqb c NotificationChannel.TELEGRAM.

(** A setting that is defined but empty: [None] or [""]. *)
Definition blank (v : Setting) : bool :=
  match v with
  | Unset => false
  | IsNone => true
  | Str s => String.eqb s ""
  end.

(** A setting that gives no value: not defined, or blank. *)
Definition absent (v : Setting) : bool :=
  match v with
  | Unset => true
  | _ => blank v
  end.

(** Some required value of the channel gives no value. *)
Definition mail_unconfigured (s : Settings) : bool :=
  absent (EMAIL_HOST s) || absent (EMAIL_HOST_USER s).
Definition sms_unconfigured (s : Settings) : bool :=
  absent (TWILIO_ACCOUNT_SID s) || absent (TWILIO_AUTH_TOKEN s)
  || absent (TWILIO_PHONE_NUMBER s).
Definition telegram_unconfigured (s : Settings) : bool :=
  absent (TELEGRAM_BOT_TOKEN s).

(** The three Twilio names are all defined. *)
Definition sms_defined (s : Settings) : bool :=
  match TWILIO_ACCOUNT_SID s, TWILIO_AUTH_TOKEN s, TWILIO_PHONE_NUMBER s with
  | Unset, _, _ | _, Unset, _ | _, _, Unset => false
  | _, _, _ => true
  end.

(** The address passes the sender's own check. *)
Definition email_valid (email : option string) : bool :=
  truthy email && Re.re_match NotificationService.email_pattern (text email).
Definition phone_valid (phone : option string) : bool :=
  truthy phone
  && (10 <=? String.length (Re.re_sub_empty Re.non_digit (text phone)))%nat.

(** A string without ["@"]. *)
Definition no_at (s : string) : bool := Re.all_chars (Re.not_char "@") s.

(** A non-empty string without ["@"]: what [[^@]+] matches. *)
Definition part (s : string) : Prop := s <> "" /\ no_at s = true.

End Run.

(** ** Sample data *)

Module Sample.

(** Nothing configured: the mail names are not defined, the others are
    [None]. *)
Definition no_settings : Settings :=
  {| EMAIL_HOST := Unset; EMAIL_HOST_USER := Unset;
     DEFAULT_FROM_EMAIL := Unset; TWILIO_ACCOUNT_SID := IsNone;
     TWILIO_AUTH_TOKEN := IsNone; TWILIO_PHONE_NUMBER := IsNone;
     TELEGRAM_BOT_TOKEN := IsNone |}.

(** No name is defined at all. *)
Definition bare_settings : Settings :=
  {| EMAIL_HOST := Unset; EMAIL_HOST_USER := Unset;
     DEFAULT_FROM_EMAIL := Unset; TWILIO_ACCOUNT_SID := Unset;
     TWILIO_AUTH_TOKEN := Unset; TWILIO_PHONE_NUMBER := Unset;
     TELEGRAM_BOT_TOKEN := Unset |}.

(** Everything configured. *)
Definition full_settings : Settings :=
  {| EMAIL_HOST := Str "smtp.mail.test"; EMAIL_HOST_USER := Str "mailer";
     DEFAULT_FROM_EMAIL := Str "noreply@mail.test";
     TWILIO_ACCOUNT_SID := Str "AC01"; TWILIO_AUTH_TOKEN := Str "secret";
     TWILIO_PHONE_NUMBER := Str "+15550100";
     TELEGRAM_BOT_TOKEN := Str "77:token" |}.

Definition ok_response : Response :=
  {| status_error := None; json := Ok (JDict true None) |}.

(** Every service accepts every call. *)
Definition all_up : Transport :=
  {| smtp := fun _ _ _ _ _ => Ok tt;
     twilio := fun _ _ _ _ _ _ => Ok "SM01";
     telegram := fun _ _ _ _ _ _ => Ok ok_response |}.

(** Every service refuses every call. *)
Definition all_down : Transport :=
  {| smtp := fun _ _ _ _ _ => Raise (OtherException "Connection refused");
     twilio := fun _ _ _ _ _ _ =>
                 Raise (TwilioRestException "Unable to create record" "HTTP 400");
     telegram := fun _ _ _ _ _ _ => Raise (RequestException "timed out") |}.

(** The mail server is down, the other two services work. *)
Definition mail_down : Transport :=
  {| smtp := fun _ _ _ _ _ => Raise (OtherException "Connection refused");
     twilio := fun _ _ _ _ _ _ => Ok "SM01";
     telegram := fun _ _ _ _ _ _ => Ok ok_response |}.

Definition alice : User.t := {| User.id := 1; User.username := "alice" |}.

Definition alice_profile : UserProfile.t :=
  {| UserProfile.phone_number := Some "+1 (555) 123-4567";
     UserProfile.email := Some "alice@example.org";
     UserProfile.telegram_chat_id := Some "4242" |}.

(** One user with a full profile; no notification yet. *)
Definition st0 : State :=
  {| users := {[ 1%Z := alice ]};
     profiles := {[ 1%Z := alice_profile ]};
     notifications := ∅;
     next_notification_id := 1;
     logs := [];
     network := [];
     tried := [] |}.

(** The notification that the first task run on [st0] creates for the
    title ["t"] and the message ["m"], and the state once it is
    created. *)
Definition first : Notification.t :=
  {| Notification.id := 1; Notification.user := 1;
     Notification.title := "t"; Notification.message := "m";
     Notification.is_delivered := false |}.

Definition st1 : State :=
  set_notifications st0 (<[1%Z := first]> (notifications st0)) 2.

End Sample.

(** ** Vocabulary of the further properties *)

Module Audit.
Import Tasks Run.

(** A call that carries the given title and message to an address of the
    profile: the e-mail address, the digits of the phone number, or the
    Telegram chat. *)
Definition addressed_to (profile : UserProfile.t) (title message : string)
    (call : NetCall) : Prop :=
  match call with
  | smtp_send subject body _ recipient_list =>
      subject = title /\ body = message
      /\ populated (UserProfile.email profile)
      /\ recipient_list = [text (UserProfile.email profile)]
  | twilio_create _ _ body _ to =>
      body = message
      /\ populated (UserProfile.phone_number profile)
      /\ to = "+" +:+ Re.re_sub_empty Re.non_digit
                        (text (UserProfile.phone_number profile))
  | http_post _ chat_id body _ _ =>
      body = message
      /\ populated (UserProfile.telegram_chat_id profile)
      /\ chat_id = text (UserProfile.telegram_chat_id profile)
  end.

(** The channel a call belongs to. *)
Definition channel_of (call : NetCall) : string :=
  match call with
  | smtp_send _ _ _ _ => NotificationChannel.EMAIL
  | twilio_create _ _ _ _ _ => NotificationChannel.SMS
  | http_post _ _ _ _ _ => NotificationChannel.TELEGRAM
  end.

(** The rows of the notification table carry their own key, and the
    sequence of keys is ahead of all of them. *)
Definition keyed (st : State) : Prop :=
  forall k n,
    notifications st !! k = Some n ->
    Notification.id n = k /\ (k < next_notification_id st)%Z.

(** A worker runs a job: the task is called with the keyword arguments
    that were queued. *)
Definition run_job (settings : Settings) (T : Transport) (job : Job.t)
  : M State Result.t :=
  send_notification settings T (Job.user_id job) (Job.title job)
    (Job.message job) (Some (Job.channels job))
    (Some (Job.notification_id job)).

(** The job that [_send_notification_task] queues for a notification. *)
Definition job_for (notification : Notification.t) (channels : list string)
  : Job.t :=
  {| Job.user_id := Notification.user notification;
     Job.title := Notification.title notification;
     Job.message := Notification.message notification;
     Job.channels := channels;
     Job.notification_id := Notification.id notification |}.

(** What the admin selects for a user: the channels of the profile, none
    without profile. *)
Definition selection (st : State) (user : Z) : list string :=
  match profiles st !! user with
  | Some profile => Tasks._get_available_channels profile
  | None => []
  end.

(** The distinct channels of the rows logged for a notification, as the
    database answers them. *)
Definition previous_channels (distinct : list string -> list string)
    (st : State) (notification : Notification.t) : list string :=
  distinct
    (map NotificationLog.channel
       (filter (fun row =>
                  NotificationLog.notification row = Notification.id notification)
          (logs st))).

(** The channels a resend hands to the task: the selection, or without
    selection the channels logged before. *)
Definition resend_channels (distinct : list string -> list string)
    (st : State) (notification : Notification.t) : list string :=
  match selection st (Notification.user notification) with
  | [] => previous_channels distinct st notification
  | c :: l => c :: l
  end.

(** One more notice for the administrator. *)
Definition notice (s : Admin.Site) (level : Admin.Level) (text : string)
  : Admin.Site :=
  {| Admin.db := Admin.db s; Admin.queue := Admin.queue s;
     Admin.messages := Admin.messages s ++ [(level, text)] |}.

(** One more job in the queue, with the notice that it is queued. *)
Definition queued (s : Admin.Site) (job : Job.t) : Admin.Site :=
  {| Admin.db := Admin.db s; Admin.queue := Admin.queue s ++ [job];
     Admin.messages :=
       Admin.messages s
       ++ [(Admin.INFO, "Уведомление поставлено в очередь на отправку")] |}.

End Audit.

(** ** More sample data *)

Module Desk.

(** A broker that takes every job, and one that is down. *)
Definition broker_up : Admin.Broker := fun _ _ => None.
Definition broker_down : Admin.Broker :=
  fun _ _ => Some (OtherException "Connection refused").

(** [distinct] as a database may answer it: each channel once. *)
Definition distinct : list string -> list string := remove_dups.

(** The form of a new notification for user 1. *)
Definition new_obj : Obj.t :=
  {| Obj.pk := None; Obj.user := 1; Obj.title := "t"; Obj.message := "m";
     Obj.is_delivered := false |}.

Definition site0 : Admin.Site :=
  {| Admin.db := Sample.st0; Admin.queue := []; Admin.messages := [] |}.

(** User 1 has lost every contact field; notification 1 was tried by
    e-mail and by SMS before. *)
Definition bare_profile : UserProfile.t :=
  {| UserProfile.phone_number := None; UserProfile.email := Some "";
     UserProfile.telegram_chat_id := None |}.

Definition old_rows : list NotificationLog.t :=
  [ {| NotificationLog.notification := 1; NotificationLog.channel := "email";
       NotificationLog.status := false;
       NotificationLog.error_message := Some "Connection refused" |};
    {| NotificationLog.notification := 1; NotificationLog.channel := "sms";
       NotificationLog.status := true;
       NotificationLog.error_message := None |};
    {| NotificationLog.notification := 1; NotificationLog.channel := "email";
       NotificationLog.status := false;
       NotificationLog.error_message := Some "Connection refused" |} ].

Definition sent : Notification.t :=
  Notification.with_is_delivered Sample.first true.

Definition st_bare : State :=
  {| users := {[ 1%Z := Sample.alice ]};
     profiles := {[ 1%Z := bare_profile ]};
     notifications := {[ 1%Z := sent ]};
     next_notification_id := 2;
     logs := old_rows;
     network := [];
     tried := [] |}.

(** User 1 has no profile at all; notification 1 had been delivered. *)
Definition st_orphan : State :=
  {| users := {[ 1%Z := Sample.alice ]};
     profiles := ∅;
     notifications := {[ 1%Z := sent ]};
     next_notification_id := 2;
     logs := old_rows;
     network := [];
     tried := [] |}.

Definition site_bare : Admin.Site :=
  {| Admin.db := st_bare; Admin.queue := []; Admin.messages := [] |}.

(** The site once [new_obj] is saved on [site0] with the broker up. *)
Definition queued_site : Admin.Site :=
  {| Admin.db := Sample.st1;
     Admin.queue :=
       [ {| Job.user_id := 1; Job.title := "t"; Job.message := "m";
            Job.channels := ["email"; "sms"; "telegram"];
            Job.notification_id := 1 |} ];
     Admin.messages :=
       [(Admin.INFO, "Уведомление поставлено в очередь на отправку")] |}.

End Desk.

(* ================================================================== *)
(** * Part II: properties                                              *)
(* ================================================================== *)

(** ** What [re.match] decides *)

Module ReFacts.
Import Re.
#[local] Arguments String.append : simpl nomatch.

Lemma append_empty_inv (s1 s2 : string) :
  s1 +:+ s2 = "" -> s1 = "" /\ s2 = "".
Proof. destruct s1; simpl; [tauto | discriminate]. Qed.

Lemma append_cons_inv (s1 s2 s : string) (c : ascii) :
  s1 +:+ s2 = String c s ->
  (s1 = "" /\ s2 = String c s) \/ (exists s1', s1 = String c s1' /\ s = s1' +:+ s2).
Proof.
  destruct s1 as [|a s1]; simpl; intros H; [left; tauto|].
  injection H as -> <-. right. eauto.
Qed.

Lemma append_assoc (a b c : string) : (a +:+ b) +:+ c = a +:+ (b +:+ c).
Proof. induction a; simpl; congruence. Qed.

Lemma nullable_matches (r : regex) : nullable r = true -> matches r "".
Proof.
  induction r; simpl; intros H; try discriminate.
  - constructor.
  - apply andb_true_iff in H as [H1 H2].
    change "" with ("" +:+ ""). constructor; auto.
  - apply orb_true_iff in H as [H|H]; [apply m_alt_l | apply m_alt_r]; auto.
  - constructor.
Qed.

Lemma matches_nullable (r : regex) (s : string) :
  matches r s -> s = "" -> nullable r = true.
Proof.
  induction 1; simpl; intros E; try discriminate; auto.
  - apply append_empty_inv in E as [-> ->]. rewrite IHmatches1, IHmatches2; auto.
  - rewrite IHmatches; auto.
  - rewrite IHmatches; auto using orb_true_r.
Qed.

Lemma nullable_spec (r : regex) : nullable r = true <-> matches r "".
Proof. split; [apply nullable_matches | intros; eapply matches_nullable; eauto]. Qed.

Lemma deriv_sound (c : ascii) (r : regex) :
  forall s, matches (deriv c r) s -> matches r (String c s).
Proof.
  induction r; simpl; intros s H.
  - inversion H.
  - inversion H.
  - destruct (cls c) eqn:E; inversion H; subst. now constructor.
  - destruct (nullable r1) eqn:N.
    + inversion H; subst.
      * match goal with Hc : matches (Cat _ _) _ |- _ => inversion Hc; subst end.
        change (String c (s1 +:+ s2)) with (String c s1 +:+ s2).
        constructor; auto.
      * change (String c s) with ("" +:+ String c s).
        constructor; auto using nullable_matches.
    + inversion H; subst.
      change (String c (s1 +:+ s2)) with (String c s1 +:+ s2).
      constructor; auto.
  - inversion H; subst; [apply m_alt_l | apply m_alt_r]; auto.
  - inversion H; subst.
    change (String c (s1 +:+ s2)) with (String c s1 +:+ s2).
    constructor; auto.
Qed.

Lemma deriv_complete (r : regex) (s0 : string) :
  matches r s0 -> forall a t, s0 = String a t -> matches (deriv a r) t.
Proof.
  induction 1; intros a t E; simpl; try discriminate.
  - injection E as Ha Ht. subst. rewrite H. constructor.
  - apply append_cons_inv in E as [[-> ->] | (s1' & -> & ->)].
    + rewrite (matches_nullable _ _ H eq_refl). apply m_alt_r; auto.
    + destruct (nullable r1); [apply m_alt_l|]; constructor; auto.
  - apply m_alt_l; auto.
  - apply m_alt_r; auto.
  - apply append_cons_inv in E as [[-> ->] | (s1' & -> & ->)].
    + apply (IHmatches2 a t eq_refl).
    + constructor; auto.
Qed.

Lemma deriv_spec (c : ascii) (r : regex) (s : string) :
  matches (deriv c r) s <-> matches r (String c s).
Proof. split; [apply deriv_sound | intros; eapply deriv_complete; eauto]. Qed.

(** [re_match] holds exactly when a prefix of the string is a word of
    the pattern. *)
Lemma re_match_spec (s : string) :
  forall r, re_match r s = true <-> exists p q, s = p +:+ q /\ matches r p.
Proof.
  induction s as [|c s IH]; intros r; simpl.
  - rewrite orb_false_r, nullable_spec. split.
    + intros H. exists "", "". auto.
    + intros (p & q & E & H). symmetry in E.
      apply append_empty_inv in E as [-> _]. auto.
  - rewrite orb_true_iff, IH, nullable_spec. split.
    + intros [H | (p & q & -> & H)].
      * exists "", (String c s). auto.
      * exists (String c p), q. split; auto. now apply deriv_spec.
    + intros (p & q & E & H). destruct p as [|a p]; [left; auto | right].
      simpl in E. injection E as <- ->.
      exists p, q. split; auto. now apply deriv_spec.
Qed.

Lemma matches_atom_inv (cls : ascii -> bool) (s : string) :
  matches (Atom cls) s -> exists c, s = String c "" /\ cls c = true.
Proof. inversion 1; subst; eauto. Qed.

Lemma matches_cat_inv (r1 r2 : regex) (s : string) :
  matches (Cat r1 r2) s ->
  exists s1 s2, s = s1 +:+ s2 /\ matches r1 s1 /\ matches r2 s2.
Proof. inversion 1; subst; eauto. Qed.

Lemma matches_star_class (cls : ascii -> bool) (s : string) :
  matches (Star (Atom cls)) s <-> all_chars cls s = true.
Proof.
  split.
  - intros H. remember (Star (Atom cls)) as r eqn:E.
    induction H; try discriminate; [reflexivity|].
    injection E as ->.
    apply matches_atom_inv in H as (c & -> & Hc).
    simpl. rewrite Hc. auto.
  - induction s as [|c s IH]; simpl; intros H; [constructor|].
    apply andb_true_iff in H as [Hc Hs].
    change (String c s) with (String c "" +:+ s).
    constructor; [now constructor | auto].
Qed.

(** [[...]+] matches the non-empty strings over the class. *)
Lemma matches_plus_class (cls : ascii -> bool) (s : string) :
  matches (Plus (Atom cls)) s <-> s <> "" /\ all_chars cls s = true.
Proof.
  unfold Plus. split.
  - intros H. apply matches_cat_inv in H as (s1 & s2 & -> & H1 & H2).
    apply matches_atom_inv in H1 as (c & -> & Hc).
    apply matches_star_class in H2. simpl. rewrite Hc, H2.
    split; [discriminate | reflexivity].
  - intros [Hne H]. destruct s as [|c s]; [contradiction|].
    simpl in H. apply andb_true_iff in H as [Hc Hs].
    change (String c s) with (String c "" +:+ s).
    constructor; [now constructor | now apply matches_star_class].
Qed.

Lemma matches_char (c : ascii) (s : string) :
  matches (Atom (char c)) s <-> s = String c "".
Proof.
  split.
  - intros H. apply matches_atom_inv in H as (a & -> & Ha).
    unfold char in Ha. apply Ascii.eqb_eq in Ha. now subst.
  - intros ->. constructor. unfold char. apply Ascii.eqb_refl.
Qed.

(** The words of the e-mail pattern: three non-empty parts without
    ["@"], joined by ["@"] and ["."]. *)
Lemma email_pattern_words (p : string) :
  matches NotificationService.email_pattern p
  <-> exists l d x,
        p = l +:+ "@" +:+ d +:+ "." +:+ x
        /\ (l <> "" /\ all_chars (not_char "@") l = true)
        /\ (d <> "" /\ all_chars (not_char "@") d = true)
        /\ (x <> "" /\ all_chars (not_char "@") x = true).
Proof.
  unfold NotificationService.email_pattern. split.
  - intros H.
    apply matches_cat_inv in H as (l & s1 & -> & Hl & H).
    apply matches_cat_inv in H as (a & s2 & -> & Ha & H).
    apply matches_cat_inv in H as (d & s3 & -> & Hd & H).
    apply matches_cat_inv in H as (b & x & -> & Hb & Hx).
    apply matches_char in Ha as ->. apply matches_char in Hb as ->.
    apply matches_plus_class in Hl, Hd, Hx.
    exists l, d, x. auto.
  - intros (l & d & x & -> & Hl & Hd & Hx).
    apply matches_plus_class in Hl, Hd, Hx.
    constructor; [exact Hl|].
    change ("@" +:+ d +:+ "." +:+ x)
      with (String "@" "" +:+ (d +:+ "." +:+ x)).
    constructor; [now apply matches_char|].
    constructor; [exact Hd|].
    change ("." +:+ x) with (String "." "" +:+ x).
    constructor; [now apply matches_char | exact Hx].
Qed.

End ReFacts.

(** ** The channel senders *)

Module SenderFacts.
Import NotificationService Tasks Run.

(** Unfolds the monad and the calls of a sender down to matches. *)
Ltac run :=
  unfold try_except, mbind, M_bind, bind, mret, M_ret, ret, raise,
    getattr, send_mail, messages_create, requests_post, raise_for_status,
    response_json, get_ok, get_description in *;
  simpl in *.

(** Splits every match and conditional in sight. *)
Ltac cases := repeat (case_match; simplify_eq/=; run).

Section WithWorld.
Context (settings : Settings) (T : Transport).

Lemma send_email_returns (email : option string) (title message : string)
    (w : Net) :
  exists b e w',
    send_email settings T email title message w = (Ok (b, e), w').
Proof. unfold send_email. run. cases; eauto. Qed.

Lemma send_sms_returns (phone : option string) (message : string) (w : Net) :
  exists b e w', send_sms settings T phone message w = (Ok (b, e), w').
Proof. unfold send_sms. run. cases; eauto. Qed.

Lemma send_telegram_returns (chat_id : option string) (message : string)
    (w : Net) :
  exists b e w', send_telegram settings T chat_id message w = (Ok (b, e), w').
Proof. unfold send_telegram. run. cases; eauto. Qed.

Lemma _send_by_channel_returns (channel : string) (profile : UserProfile.t)
    (title message : string) (w : Net) :
  exists b e w',
    _send_by_channel settings T channel profile title message w
    = (Ok (b, e), w').
Proof.
  unfold _send_by_channel.
  repeat case_match;
    eauto using send_email_returns, send_sms_returns, send_telegram_returns.
Qed.

(** [attempt] is what [_send_by_channel] answers. *)
Lemma attempt_spec (channel : string) (profile : UserProfile.t)
    (title message : string) (w : Net) :
  _send_by_channel settings T channel profile title message w
  = (Ok (fst (attempt settings T profile title message channel w)),
     snd (attempt settings T profile title message channel w)).
Proof.
  unfold attempt.
  destruct (_send_by_channel_returns channel profile title message w)
    as (b & e & w' & ->).
  reflexivity.
Qed.

End WithWorld.

End SenderFacts.

(** ** The channel loop *)

Module LoopFacts.
Import NotificationService Tasks Run SenderFacts.

Lemma first_success_none (os : list Attempt) :
  first_success os = None <-> all_failed os = true.
Proof.
  induction os as [|a os IH]; simpl; [tauto|].
  destruct (succeeded a); simpl; [split; discriminate|].
  rewrite <- IH. destruct (first_success os); simpl; split; congruence.
Qed.

(** The attempts up to the first success: all failures but the last. *)
Lemma first_success_take (os : list Attempt) :
  forall k, first_success os = Some k ->
    exists pre a, take k os = pre ++ [a] /\ length pre = pred k
                  /\ all_failed pre = true /\ succeeded a = true.
Proof.
  induction os as [|a os IH]; simpl; intros k H; [discriminate|].
  destruct (succeeded a) eqn:E.
  - injection H as <-. exists [], a. simpl. rewrite take_0. auto.
  - destruct (first_success os) as [k'|]; simpl in H; [|discriminate].
    injection H as <-.
    destruct (IH k' eq_refl) as (pre & b & Ht & Hl & Hf & Hs).
    exists (a :: pre), b. simpl. rewrite Ht, E, Hf, Hl.
    repeat split; auto.
    destruct k'; [|reflexivity]. rewrite take_0 in Ht. now destruct pre.
Qed.

Lemma first_success_pos (os : list Attempt) (k : nat) :
  first_success os = Some k -> 1 <= k <= length os.
Proof.
  revert k. induction os as [|a os IH]; simpl; intros k H; [discriminate|].
  destruct (succeeded a); [injection H as <-; lia|].
  destruct (first_success os) as [k'|]; simpl in H; [|discriminate].
  injection H as <-. specialize (IH k' eq_refl). lia.
Qed.

Lemma logged_nil (st : State) (nid : Z) :
  logged st nid [] (network st) = st.
Proof. destruct st. unfold logged. simpl. now rewrite !app_nil_r. Qed.

Section WithRun.
Context (settings : Settings) (T : Transport).
Context (n : Notification.t) (profile : UserProfile.t) (title message : string).

#[local] Abbreviation nid := (Notification.id n).
#[local] Abbreviation loop l :=
  (for_channel_in settings T l (Some n) profile title message).
#[local] Abbreviation att := (attempt settings T profile title message).
#[local] Abbreviation outs := (outcomes settings T profile title message).
#[local] Abbreviation after := (net_after settings T profile title message).

(** One turn of the loop on a channel whose sender fails. *)
Lemma loop_step_failed (c : string) (rest : list string) (st : State) :
  fst (att c (network st)) = (false, snd (fst (att c (network st)))) ->
  loop (c :: rest) st
  = loop rest (logged st nid [(c, fst (att c (network st)))]
                 (snd (att c (network st)))).
Proof.
  intros H. cbn [for_channel_in]. unfold mbind, M_bind, bind at 1.
  unfold call_send_by_channel. rewrite attempt_spec.
  destruct (att c (network st)) as [[b e] w'] eqn:E. simpl in H.
  injection H as ->. reflexivity.
Qed.

(** One turn of the loop on a channel whose sender succeeds. *)
Lemma loop_step_succeeded (c : string) (rest : list string) (st : State) :
  fst (fst (att c (network st))) = true ->
  loop (c :: rest) st
  = (Ok (success_result c nid),
     saved (logged st nid [(c, fst (att c (network st)))]
              (snd (att c (network st)))) n true).
Proof.
  intros H. cbn [for_channel_in]. unfold mbind, M_bind, bind at 1.
  unfold call_send_by_channel. rewrite attempt_spec.
  destruct (att c (network st)) as [[b e] w'] eqn:E. simpl in H. subst b.
  reflexivity.
Qed.

Lemma outcomes_channels (l : list string) :
  forall w, map fst (outs l w) = l.
Proof. induction l as [|c l IH]; simpl; intros w; [|rewrite IH]; auto. Qed.

Lemma outcomes_length (l : list string) (w : Net) :
  length (outs l w) = length l.
Proof. now rewrite <- (outcomes_channels l w) at 2; rewrite length_map. Qed.

Lemma outcomes_take (k : nat) :
  forall l w, take k (outs l w) = outs (take k l) w.
Proof.
  induction k as [|k IH]; intros [|c l] w; simpl; auto.
  now rewrite IH.
Qed.

Lemma logged_logged (st : State) (os1 os2 : list Attempt) (w1 w2 : Net) :
  logged (logged st nid os1 w1) nid os2 w2 = logged st nid (os1 ++ os2) w2.
Proof. unfold logged. simpl. now rewrite !map_app, !app_assoc. Qed.

(** Channels that all fail are tried and logged one by one, and the
    loop goes on with the channels after them. *)
Lemma loop_failed_prefix (pre rest : list string) :
  forall st,
    all_failed (outs pre (network st)) = true ->
    loop (pre ++ rest) st
    = loop rest (logged st nid (outs pre (network st))
                   (after pre (network st))).
Proof.
  induction pre as [|c pre IH]; intros st H.
  - simpl. now rewrite logged_nil.
  - simpl in H. apply andb_true_iff in H as [Hc Hpre].
    unfold succeeded in Hc. simpl in Hc. apply negb_true_iff in Hc.
    change ((c :: pre) ++ rest) with (c :: (pre ++ rest)).
    rewrite loop_step_failed
      by (destruct (att c (network st)) as [[b e] w']; simpl in *; congruence).
    rewrite IH by exact Hpre. simpl. now rewrite logged_logged.
Qed.

(** Every channel failed: one log row per channel, the flag saved as
    false, the error of the last lines of the task. *)
Lemma loop_all_failed (l : list string) (st : State) :
  all_failed (outs l (network st)) = true ->
  loop l st
  = (Ok (error_result "Не удалось доставить ни по одному каналу" nid),
     saved (logged st nid (outs l (network st)) (after l (network st)))
       n false).
Proof.
  intros H. rewrite <- (app_nil_r l) at 1.
  now rewrite loop_failed_prefix by exact H.
Qed.

(** The first success ends the loop: the attempts up to it are logged,
    the flag is saved as true, the later channels are left alone. *)
Lemma loop_first_success (l : list string) :
  forall k st,
    first_success (outs l (network st)) = Some k ->
    exists c,
      l !! pred k = Some c
      /\ loop l st
         = (Ok (success_result c nid),
            saved (logged st nid (take k (outs l (network st)))
                     (after (take k l) (network st))) n true).
Proof.
  induction l as [|c l IH]; intros k st H; [discriminate|].
  simpl in H. unfold succeeded in H. simpl in H.
  destruct (fst (fst (att c (network st)))) eqn:E.
  - injection H as <-. exists c. split; [reflexivity|].
    rewrite loop_step_succeeded by exact E. simpl. now rewrite take_0.
  - destruct (first_success (outs l (snd (att c (network st)))))
      as [k'|] eqn:F; simpl in H; [|discriminate].
    injection H as <-.
    pose proof (first_success_pos _ _ F) as Hk.
    rewrite loop_step_failed
      by (destruct (att c (network st)) as [[b e] w']; simpl in *; congruence).
    destruct (IH k' (logged st nid [(c, fst (att c (network st)))]
                       (snd (att c (network st)))) F) as (c' & Hc' & Hrun).
    exists c'. split.
    + destruct k'; [lia|]. exact Hc'.
    + rewrite Hrun. simpl. now rewrite logged_logged.
Qed.

(** Every run of the loop on a notification at hand returns: either
    all the channels failed, or the attempts stop at the first
    success.  The flag saved is true exactly when an attempt
    succeeded. *)
Lemma loop_run (l : list string) (st : State) :
  exists (os : list Attempt) (r : Result.t),
    loop l st
    = (Ok r, saved (logged st nid os (after (map fst os) (network st))) n
               (existsb succeeded os))
    /\ os `prefix_of` outs l (network st)
    /\ ((r = error_result "Не удалось доставить ни по одному каналу" nid
         /\ existsb succeeded os = false /\ os = outs l (network st))
        \/ (exists c, r = success_result c nid
                      /\ existsb succeeded os = true)).
Proof.
  destruct (first_success (outs l (network st))) as [k|] eqn:F.
  - destruct (loop_first_success l k st F) as (c & Hc & Hrun).
    destruct (first_success_take _ _ F) as (pre & a & Ht & _ & _ & Ha).
    assert (He : existsb succeeded (take k (outs l (network st))) = true).
    { rewrite Ht, existsb_app. simpl. rewrite Ha.
      now rewrite orb_true_r. }
    exists (take k (outs l (network st))), (success_result c nid).
    rewrite He, outcomes_take, outcomes_channels, <- outcomes_take.
    split; [exact Hrun|]. split; [apply prefix_take|]. right. eauto.
  - apply first_success_none in F.
    assert (He : existsb succeeded (outs l (network st)) = false).
    { revert F. unfold all_failed.
      induction (outs l (network st)) as [|a os IH]; simpl; auto.
      intros H. apply andb_true_iff in H as [Ha Hos].
      apply negb_true_iff in Ha. rewrite Ha. auto. }
    exists (outs l (network st)),
      (error_result "Не удалось доставить ни по одному каналу" nid).
    rewrite He, outcomes_channels.
    split; [now apply loop_all_failed|]. split; [reflexivity|]. left. auto.
Qed.

End WithRun.

End LoopFacts.

(** ** The task around the loop *)

Module TaskFacts.
Import NotificationService Tasks Run SenderFacts LoopFacts.

(** The notification step changes nothing but the notification table. *)
Lemma get_or_create_frame (user : User.t) (title message : string)
    (notification_id : option Z) (st st1 : State) (r : Outcome (option Notification.t)) :
  _get_or_create_notification user title message notification_id st = (r, st1) ->
  users st1 = users st /\ profiles st1 = profiles st /\ logs st1 = logs st
  /\ network st1 = network st /\ tried st1 = tried st.
Proof.
  unfold _get_or_create_notification, try_get, objects_get.
  destruct (truthy_int notification_id).
  - destruct (notifications st !! default 0%Z notification_id);
      simpl; intros H; injection H as <- <-; auto.
  - simpl. intros H. injection H as <- <-. auto.
Qed.

(** An id that is given, is not [0] and names no row makes the step
    answer [None]; nothing is created. *)
Lemma get_or_create_missing (user : User.t) (title message : string)
    (i : Z) (st : State) :
  i <> 0%Z -> notifications st !! i = None ->
  _get_or_create_notification user title message (Some i) st = (Ok None, st).
Proof.
  intros Hi Hn. unfold _get_or_create_notification, try_get, objects_get.
  simpl. destruct (Z.eqb_spec i 0); [contradiction|]. simpl.
  now rewrite Hn.
Qed.

(** The id [0] is taken as no id: a notification is created. *)
Lemma get_or_create_zero (user : User.t) (title message : string) (st : State) :
  _get_or_create_notification user title message (Some 0%Z) st
  = _get_or_create_notification user title message None st.
Proof. reflexivity. Qed.

(** The step answers a notification, or [None] in the case above. *)
Lemma get_or_create_cases (user : User.t) (title message : string)
    (notification_id : option Z) (st : State) :
  (exists n st1,
      _get_or_create_notification user title message notification_id st
      = (Ok (Some n), st1))
  \/ (exists i, notification_id = Some i /\ i <> 0%Z
                /\ notifications st !! i = None).
Proof.
  destruct notification_id as [i|].
  - destruct (Z.eqb_spec i 0) as [->|Hi].
    + left. unfold _get_or_create_notification. simpl. eauto.
    + destruct (notifications st !! i) as [n|] eqn:E.
      * left. exists n, st.
        unfold _get_or_create_notification, try_get, objects_get. simpl.
        destruct (Z.eqb_spec i 0); [contradiction|]. simpl. now rewrite E.
      * right. eauto.
  - left. unfold _get_or_create_notification. simpl. eauto.
Qed.

Section WithWorld.
Context (settings : Settings) (T : Transport).

(** The task once the recipient and the notification are at hand. *)
Lemma send_notification_resolved (user_id : Z) (title message : string)
    (channels : option (list string)) (notification_id : option Z)
    (st st1 : State) (user : User.t) (n : Notification.t) :
  users st !! user_id = Some user ->
  _get_or_create_notification user title message notification_id st
  = (Ok (Some n), st1) ->
  send_notification settings T user_id title message channels
    notification_id st
  = match profiles st !! User.id user with
    | None =>
        (Ok (error_result "Профиль пользователя не найден"
               (Notification.id n)),
         saved st1 n false)
    | Some profile =>
        match or_list channels (_get_available_channels profile) with
        | [] =>
            (Ok (error_result "Нет доступных каналов для отправки"
                   (Notification.id n)),
             saved st1 n false)
        | c :: l =>
            for_channel_in settings T (c :: l) (Some n) profile title
              message st1
        end
    end.
Proof.
  intros Hu Hn.
  destruct (get_or_create_frame _ _ _ _ _ _ _ Hn) as (_ & Hp & _).
  unfold send_notification, try_get at 1, objects_get at 1.
  rewrite Hu. unfold mbind, M_bind, bind at 1. rewrite Hn.
  unfold try_get, objects_get. rewrite Hp.
  destruct (profiles st !! User.id user) as [profile|]; [|reflexivity].
  destruct (or_list channels (_get_available_channels profile));
    reflexivity.
Qed.

(** The task when the notification step answered [None]: every path
    raises.  Without a profile or a channel the first use of the
    notification raises at once; otherwise the first channel is tried
    and the insertion of its log row is refused. *)
Lemma send_notification_unresolved (user_id : Z) (title message : string)
    (channels : option (list string)) (i : Z) (st : State) (user : User.t) :
  users st !! user_id = Some user ->
  i <> 0%Z -> notifications st !! i = None ->
  send_notification settings T user_id title message channels (Some i) st
  = match profiles st !! User.id user with
    | None =>
        (Raise (AttributeError
                  "'NoneType' object has no attribute 'is_delivered'"), st)
    | Some profile =>
        match or_list channels (_get_available_channels profile) with
        | [] =>
            (Raise (AttributeError
                      "'NoneType' object has no attribute 'is_delivered'"),
             st)
        | c :: _ =>
            (Raise (IntegrityError
               "NOT NULL constraint failed: notification_app_notificationlog.notification_id"),
             set_network st
               (snd (attempt settings T profile title message c
                       (network st))) [c])
        end
    end.
Proof.
  intros Hu Hi Hn.
  unfold send_notification, try_get at 1, objects_get at 1.
  rewrite Hu. unfold mbind, M_bind, bind at 1.
  rewrite get_or_create_missing by assumption.
  unfold try_get, objects_get.
  destruct (profiles st !! User.id user) as [profile|]; [|reflexivity].
  destruct (or_list channels (_get_available_channels profile))
    as [|c l] eqn:E; [reflexivity|].
  cbn [for_channel_in]. unfold mbind, M_bind, bind at 1.
  unfold call_send_by_channel. rewrite attempt_spec.
  destruct (attempt settings T profile title message c (network st))
    as [[b e] w']. reflexivity.
Qed.

End WithWorld.

End TaskFacts.

(* ================================================================== *)
(** * Part III: the claims of the specification                        *)
(* ================================================================== *)

Import NotificationService Tasks Run.
Import ReFacts SenderFacts LoopFacts TaskFacts.

Lemma truthy_populated (v : option string) :
  truthy v = true <-> populated v.
Proof.
  unfold populated. destruct v as [s|]; simpl.
  - rewrite negb_true_iff. split.
    + intros H. exists s. split; [reflexivity|].
      intros ->. discriminate.
    + intros (s' & [= <-] & Hne). now apply String.eqb_neq.
  - split; [discriminate | intros (s & [=] & _)].
Qed.

(** C5: [_get_available_channels] is a function of the profile alone; it
    lists e-mail, then SMS, then Telegram, each one exactly when its
    profile field is populated; it is empty when no field is populated,
    and it has no failing case. *)
Theorem C5_available_channels (profile : UserProfile.t) :
  _get_available_channels profile
  = (if truthy (UserProfile.email profile) then ["email"] else [])
    ++ (if truthy (UserProfile.phone_number profile) then ["sms"] else [])
    ++ (if truthy (UserProfile.telegram_chat_id profile)
        then ["telegram"] else [])
  /\ sublist (_get_available_channels profile) ["email"; "sms"; "telegram"]
  /\ ("email" ∈ _get_available_channels profile
      <-> populated (UserProfile.email profile))
  /\ ("sms" ∈ _get_available_channels profile
      <-> populated (UserProfile.phone_number profile))
  /\ ("telegram" ∈ _get_available_channels profile
      <-> populated (UserProfile.telegram_chat_id profile))
  /\ (_get_available_channels profile = []
      <-> ~ populated (UserProfile.email profile)
          /\ ~ populated (UserProfile.phone_number profile)
          /\ ~ populated (UserProfile.telegram_chat_id profile)).
Proof.
  rewrite <- !truthy_populated. unfold _get_available_channels.
  destruct (truthy (UserProfile.email profile)),
    (truthy (UserProfile.phone_number profile)),
    (truthy (UserProfile.telegram_chat_id profile)); simpl;
    (split; [reflexivity|]);
    (split; [repeat first [apply sublist_nil | apply sublist_skip
                           | apply sublist_cons]|]);
    rewrite ?elem_of_cons, ?elem_of_nil;
    intuition discriminate.
Qed.

(** The addresses that pass the check of [send_email]: a part, ["@"], a
    part, ["."], a part, and then anything. *)
Lemma email_valid_shape (s : string) :
  email_valid (Some s) = true
  <-> exists l d x rest,
        s = l +:+ "@" +:+ d +:+ "." +:+ x +:+ rest
        /\ part l /\ part d /\ part x.
Proof.
  unfold email_valid, part, no_at. simpl text.
  rewrite andb_true_iff, re_match_spec. split.
  - intros (_ & p & q & -> & H).
    apply email_pattern_words in H as (l & d & x & -> & Hl & Hd & Hx).
    exists l, d, x, q. rewrite !append_assoc. auto.
  - intros (l & d & x & q & -> & Hl & Hd & Hx). split.
    + destruct l as [|c l]; [now destruct Hl | reflexivity].
    + exists (l +:+ "@" +:+ d +:+ "." +:+ x), q.
      rewrite !append_assoc. split; [reflexivity|].
      apply email_pattern_words. exists l, d, x. auto.
Qed.

(** C8: [send_email] checks the address against the pattern
    part ["@"] part ["."] part before anything else: an address that is
    absent or does not begin with such a word gets the failure
    "Некорректный email-адрес" and the network is left as it was; this is
    the case of ["not-an-email"], of ["user@@bad"], of [None] and of the
    empty string. *)
Theorem C8_email_checked_before_sending (settings : Settings) (T : Transport)
    (title message : string) (w : Net) :
  (forall email,
      email_valid email = false ->
      send_email settings T email title message w
      = (Ok (false, Some "Некорректный email-адрес"), w))
  /\ send_email settings T (Some "not-an-email") title message w
     = (Ok (false, Some "Некорректный email-адрес"), w)
  /\ send_email settings T (Some "user@@bad") title message w
     = (Ok (false, Some "Некорректный email-адрес"), w)
  /\ send_email settings T None title message w
     = (Ok (false, Some "Некорректный email-адрес"), w)
  /\ send_email settings T (Some "") title message w
     = (Ok (false, Some "Некорректный email-адрес"), w)
  /\ (forall s,
        email_valid (Some s) = true
        <-> exists l d x rest,
              s = l +:+ "@" +:+ d +:+ "." +:+ x +:+ rest
              /\ part l /\ part d /\ part x).
Proof.
  assert (Hgen : forall email,
             email_valid email = false ->
             send_email settings T email title message w
             = (Ok (false, Some "Некорректный email-адрес"), w)).
  { intros email H. unfold email_valid in H. unfold send_email, try_except.
    apply andb_false_iff in H.
    assert (E : negb (truthy email)
                || negb (Re.re_match email_pattern (text email)) = true)
      by (destruct H as [-> | ->]; auto using orb_true_r).
    now rewrite E. }
  repeat split; try (apply Hgen; reflexivity); try exact Hgen;
    apply email_valid_shape.
Qed.

Lemma to_log_channels (nid : Z) (os : list Attempt) :
  map NotificationLog.channel (map (to_log nid) os) = map fst os.
Proof. induction os as [|a os IH]; simpl; [|rewrite IH]; auto. Qed.

Lemma to_log_notification (nid : Z) (os : list Attempt) :
  Forall (fun row => NotificationLog.notification row = nid)
    (map (to_log nid) os).
Proof. induction os; simpl; constructor; auto. Qed.

(** C6: whatever the address, the settings and the answer of the
    transport, each of the three senders returns a pair (success, error
    text) and raises nothing.  Hence the loop over the channels, run for
    a notification at hand, always returns a result, and the log rows it
    adds are, in order, one per channel it handed to a sender. *)
Theorem C6_senders_never_raise (settings : Settings) (T : Transport) :
  (forall email title message w,
      exists b e w',
        send_email settings T email title message w = (Ok (b, e), w'))
  /\ (forall phone message w,
         exists b e w', send_sms settings T phone message w = (Ok (b, e), w'))
  /\ (forall chat_id message w,
         exists b e w',
           send_telegram settings T chat_id message w = (Ok (b, e), w'))
  /\ (forall l n profile title message st,
         exists r st' new,
           for_channel_in settings T l (Some n) profile title message st
           = (Ok r, st')
           /\ logs st' = logs st ++ new
           /\ tried st' = tried st ++ map NotificationLog.channel new
           /\ Forall (fun row =>
                        NotificationLog.notification row = Notification.id n)
                new).
Proof.
  split; [apply send_email_returns|].
  split; [apply send_sms_returns|].
  split; [apply send_telegram_returns|].
  intros l n profile title message st.
  destruct (loop_run settings T n profile title message l st)
    as (os & r & Hrun & _).
  eexists r, _, (map (to_log (Notification.id n)) os).
  split; [exact Hrun|]. simpl.
  rewrite to_log_channels. auto using to_log_notification.
Qed.

(** C3: in a run of the task that reaches the loop (recipient, notification
    and profile at hand), let the first channel whose sender succeeds be
    at position [k] of the channel list.  Then the task returns the
    success result naming that channel; it adds exactly [k] log rows, one
    per channel tried in order, the first [k - 1] with status false and
    the last with status true; the notification is saved with
    [is_delivered] true; and only the first [k] channels were handed to a
    sender, the network being as those [k] senders left it. *)
Theorem C3_first_success_ends_the_run (settings : Settings) (T : Transport)
    (user_id : Z) (title message : string) (channels : option (list string))
    (notification_id : option Z) (st st1 : State) (user : User.t)
    (n : Notification.t) (profile : UserProfile.t) (k : nat) :
  users st !! user_id = Some user ->
  _get_or_create_notification user title message notification_id st
  = (Ok (Some n), st1) ->
  profiles st !! User.id user = Some profile ->
  first_success
    (outcomes settings T profile title message
       (or_list channels (_get_available_channels profile)) (network st))
  = Some k ->
  exists c st' pre a,
    send_notification settings T user_id title message channels
      notification_id st
    = (Ok (success_result c (Notification.id n)), st')
    /\ or_list channels (_get_available_channels profile) !! pred k = Some c
    /\ logs st' = logs st ++ map (to_log (Notification.id n)) (pre ++ [a])
    /\ pre ++ [a]
       = take k (outcomes settings T profile title message
                   (or_list channels (_get_available_channels profile))
                   (network st))
    /\ length (pre ++ [a]) = k
    /\ all_failed pre = true /\ succeeded a = true /\ fst a = c
    /\ notifications st' !! Notification.id n
       = Some (Notification.with_is_delivered n true)
    /\ tried st'
       = tried st ++ take k (or_list channels (_get_available_channels profile))
    /\ network st'
       = net_after settings T profile title message
           (take k (or_list channels (_get_available_channels profile)))
           (network st).
Proof.
  intros Hu Hn Hp F.
  destruct (get_or_create_frame _ _ _ _ _ _ _ Hn) as (_ & _ & Hl & Hw & Ht).
  set (l := or_list channels (_get_available_channels profile)) in *.
  rewrite (send_notification_resolved settings T _ _ _ channels _ _ _ _ _ Hu Hn).
  rewrite Hp. fold l. rewrite <- Hw in *. rewrite <- Hl, <- Ht.
  destruct (loop_first_success settings T n profile title message l k st1 F)
    as (c & Hc & Hrun).
  destruct (first_success_take _ _ F) as (pre & a & Htake & Hlen & Hpre & Ha).
  assert (Hk : 1 <= k) by (apply first_success_pos in F; lia).
  assert (E : map fst (pre ++ [a]) = take k l)
    by (rewrite <- Htake, outcomes_take; apply outcomes_channels).
  assert (Hfst : fst a = c).
  { assert (E' : take k l !! pred k = Some c)
      by (rewrite lookup_take_lt by lia; exact Hc).
    rewrite <- E, map_app in E'. simpl in E'.
    rewrite lookup_app_r in E' by (rewrite length_map; lia).
    rewrite length_map, Hlen, Nat.sub_diag in E'. simpl in E'. congruence. }
  exists c, (saved (logged st1 (Notification.id n) (pre ++ [a])
                      (net_after settings T profile title message (take k l)
                         (network st1))) n true), pre, a.
  split.
  { destruct l as [|c0 l0] eqn:El; [discriminate|].
    rewrite <- Htake. exact Hrun. }
  simpl. rewrite <- E.
  repeat split; auto.
  - rewrite length_app, Hlen. simpl. lia.
  - apply lookup_insert_eq.
Qed.

(** C3 on the sample: the mail server is down, so e-mail fails and SMS,
    second in the list, succeeds. *)
Lemma C3_witness :
  exists st',
    send_notification Sample.full_settings Sample.mail_down 1 "t" "m" None None
      Sample.st0
    = (Ok (success_result "sms" 1), st')
    /\ map NotificationLog.status (logs st') = [false; true]
    /\ tried st' = ["email"; "sms"].
Proof.
  destruct (C3_first_success_ends_the_run Sample.full_settings Sample.mail_down
              1 "t" "m" None None Sample.st0 Sample.st1 Sample.alice
              Sample.first Sample.alice_profile 2
              eq_refl eq_refl eq_refl eq_refl)
    as (c & st' & pre & a & Hrun & Hc & Hlogs & Htake & _ & _ & _ & _ & _
        & Htried & _).
  exists st'. injection Hc as <-. split; [exact Hrun|].
  rewrite Hlogs, Htake, Htried. split; reflexivity.
Defined.

Lemma all_failed_status (nid : Z) (os : list Attempt) :
  all_failed os = true ->
  Forall (fun row => NotificationLog.status row = false
                     /\ NotificationLog.notification row = nid)
    (map (to_log nid) os).
Proof.
  unfold all_failed. induction os as [|a os IH]; simpl; intros H;
    constructor.
  - apply andb_true_iff in H as [Ha _]. apply negb_true_iff in Ha.
    unfold succeeded in Ha. auto.
  - apply andb_true_iff in H as [_ Hos]. auto.
Qed.

(** C4: in a run of the task that reaches the loop with a non-empty
    channel list whose senders all fail, the task returns the error
    "Не удалось доставить ни по одному каналу"; it adds exactly one log
    row per channel of the list, in order, each with status false; and
    the notification is saved with [is_delivered] false. *)
Theorem C4_all_channels_failed (settings : Settings) (T : Transport)
    (user_id : Z) (title message : string) (channels : option (list string))
    (notification_id : option Z) (st st1 : State) (user : User.t)
    (n : Notification.t) (profile : UserProfile.t) :
  users st !! user_id = Some user ->
  _get_or_create_notification user title message notification_id st
  = (Ok (Some n), st1) ->
  profiles st !! User.id user = Some profile ->
  or_list channels (_get_available_channels profile) <> [] ->
  all_failed
    (outcomes settings T profile title message
       (or_list channels (_get_available_channels profile)) (network st))
  = true ->
  exists st' new,
    send_notification settings T user_id title message channels
      notification_id st
    = (Ok (error_result "Не удалось доставить ни по одному каналу"
             (Notification.id n)), st')
    /\ logs st' = logs st ++ new
    /\ map NotificationLog.channel new
       = or_list channels (_get_available_channels profile)
    /\ length new = length (or_list channels (_get_available_channels profile))
    /\ Forall (fun row => NotificationLog.status row = false
                          /\ NotificationLog.notification row
                             = Notification.id n) new
    /\ notifications st' !! Notification.id n
       = Some (Notification.with_is_delivered n false)
    /\ tried st'
       = tried st ++ or_list channels (_get_available_channels profile).
Proof.
  intros Hu Hn Hp Hne F.
  destruct (get_or_create_frame _ _ _ _ _ _ _ Hn) as (_ & _ & Hl & Hw & Ht).
  set (l := or_list channels (_get_available_channels profile)) in *.
  rewrite (send_notification_resolved settings T _ _ _ channels _ _ _ _ _ Hu Hn).
  rewrite Hp. fold l. rewrite <- Hw in *. rewrite <- Hl, <- Ht.
  replace (match l with
           | [] => _
           | c :: l0 => _
           end)
    with (for_channel_in settings T l (Some n) profile title message st1)
    by (destruct l; [contradiction | reflexivity]).
  rewrite (loop_all_failed settings T n profile title message l st1 F).
  eexists _, (map (to_log (Notification.id n))
                (outcomes settings T profile title message l (network st1))).
  split; [reflexivity|].
  simpl. rewrite to_log_channels, outcomes_channels, length_map,
           outcomes_length.
  repeat split; auto using all_failed_status.
  apply lookup_insert_eq.
Qed.

(** C4 on the sample: the three services refuse every call. *)
Lemma C4_witness :
  exists st',
    send_notification Sample.full_settings Sample.all_down 1 "t" "m" None None
      Sample.st0
    = (Ok (error_result "Не удалось доставить ни по одному каналу" 1), st')
    /\ map NotificationLog.channel (logs st') = ["email"; "sms"; "telegram"]
    /\ notifications st' !! 1%Z
       = Some (Notification.with_is_delivered Sample.first false).
Proof.
  destruct (C4_all_channels_failed Sample.full_settings Sample.all_down
              1 "t" "m" None None Sample.st0 Sample.st1 Sample.alice
              Sample.first Sample.alice_profile
              eq_refl eq_refl eq_refl ltac:(discriminate) eq_refl)
    as (st' & new & Hrun & Hlogs & Hch & _ & _ & Hflag & _).
  exists st'. split; [exact Hrun|]. split; [|exact Hflag].
  rewrite Hlogs. exact Hch.
Defined.

Lemma send_notification_no_user (settings : Settings) (T : Transport)
    (user_id : Z) (title message : string) (channels : option (list string))
    (notification_id : option Z) (st : State) :
  users st !! user_id = None ->
  send_notification settings T user_id title message channels notification_id st
  = (Ok {| Result.status := "error"; Result.notification_id := None;
           Result.channel := None;
           Result.message :=
             Some ("Пользователь с ID " +:+ pretty user_id +:+ " не найден") |},
     st).
Proof.
  intros Hu. unfold send_notification, try_get, objects_get. now rewrite Hu.
Qed.

(** Every run of the task that returns a result about a notification:
    the notification was at hand, some attempts were logged for it, and
    it was saved with the flag telling whether one of them succeeded. *)
Lemma send_notification_outcome (settings : Settings) (T : Transport)
    (user_id : Z) (title message : string) (channels : option (list string))
    (notification_id : option Z) (st st' : State) (r : Result.t) (nid : Z) :
  send_notification settings T user_id title message channels notification_id st
  = (Ok r, st') ->
  Result.notification_id r = Some nid ->
  exists user n st1 os w,
    users st !! user_id = Some user
    /\ _get_or_create_notification user title message notification_id st
       = (Ok (Some n), st1)
    /\ nid = Notification.id n
    /\ st' = saved (logged st1 nid os w) n (existsb succeeded os)
    /\ (Result.status r = "success" <-> existsb succeeded os = true).
Proof.
  intros Hrun Hid.
  destruct (users st !! user_id) as [user|] eqn:Hu.
  2: { rewrite send_notification_no_user in Hrun by exact Hu.
       injection Hrun as <- _. discriminate. }
  exists user.
  destruct (get_or_create_cases user title message notification_id st)
    as [(n & st1 & Hn) | (i & -> & Hi & Hmiss)].
  2: { rewrite (send_notification_unresolved settings T _ _ _ _ _ _ _ Hu Hi Hmiss)
         in Hrun.
       repeat case_match; discriminate. }
  rewrite (send_notification_resolved settings T _ _ _ channels _ _ _ _ _ Hu Hn)
    in Hrun.
  exists n, st1.
  destruct (profiles st !! User.id user) as [profile|].
  - destruct (or_list channels (_get_available_channels profile))
      as [|c l] eqn:El.
    + injection Hrun as <- <-. injection Hid as <-.
      exists [], (network st1). rewrite logged_nil. simpl.
      repeat split; auto; discriminate.
    + destruct (loop_run settings T n profile title message (c :: l) st1)
        as (os & r' & Hloop & _ & Hr).
      rewrite Hloop in Hrun. injection Hrun as <- <-.
      exists os, (net_after settings T profile title message (map fst os)
                    (network st1)).
      destruct Hr as [(-> & He & _) | (c' & -> & He)];
        injection Hid as <-; rewrite He; simpl;
        repeat split; auto; discriminate.
  - injection Hrun as <- <-. injection Hid as <-.
    exists [], (network st1). rewrite logged_nil. simpl.
    repeat split; auto; discriminate.
Qed.

Lemma existsb_succeeded_rows (nid : Z) (os : list Attempt) :
  existsb succeeded os = true
  <-> exists row, row ∈ map (to_log nid) os
                  /\ NotificationLog.status row = true.
Proof.
  rewrite existsb_exists. split.
  - intros (a & Hin & Ha). exists (to_log nid a). split; [|exact Ha].
    apply list_elem_of_In, in_map, Hin.
  - intros (row & Hin & Hrow). apply list_elem_of_In, in_map_iff in Hin
      as (a & <- & Hin).
    exists a. auto.
Qed.

(** C9: after a run of the task that returns a result about a
    notification, the saved [is_delivered] of that notification is true if
    and only if one of the log rows added by this run has status true.
    In particular every run that returns an error (no profile, no
    channel, every channel failed) leaves the flag false and added no row
    with status true. *)
Theorem C9_flag_iff_logged_success (settings : Settings) (T : Transport)
    (user_id : Z) (title message : string) (channels : option (list string))
    (notification_id : option Z) (st st' : State) (r : Result.t) (nid : Z) :
  send_notification settings T user_id title message channels notification_id st
  = (Ok r, st') ->
  Result.notification_id r = Some nid ->
  exists n' new,
    notifications st' !! nid = Some n'
    /\ logs st' = logs st ++ new
    /\ Forall (fun row => NotificationLog.notification row = nid) new
    /\ (Notification.is_delivered n' = true
        <-> exists row, row ∈ new /\ NotificationLog.status row = true)
    /\ (Result.status r = "success" <-> Notification.is_delivered n' = true)
    /\ (Result.status r <> "success" ->
        Notification.is_delivered n' = false
        /\ Forall (fun row => NotificationLog.status row = false) new).
Proof.
  intros Hrun Hid.
  destruct (send_notification_outcome _ _ _ _ _ _ _ _ _ _ _ Hrun Hid)
    as (user & n & st1 & os & w & Hu & Hn & -> & -> & Hs).
  destruct (get_or_create_frame _ _ _ _ _ _ _ Hn) as (_ & _ & Hl & _).
  exists (Notification.with_is_delivered n (existsb succeeded os)),
    (map (to_log (Notification.id n)) os).
  simpl. rewrite Hl, <- existsb_succeeded_rows.
  split; [apply lookup_insert_eq|].
  split; [reflexivity|].
  split; [apply to_log_notification|].
  split; [reflexivity|].
  split; [exact Hs|].
  intros Hne.
  destruct (existsb succeeded os) eqn:E.
  - exfalso. apply Hne, Hs. reflexivity.
  - split; [reflexivity|].
    apply Forall_forall. intros row Hin.
    destruct (NotificationLog.status row) eqn:Hrow; [|reflexivity].
    assert (existsb succeeded os = true)
      by (apply (existsb_succeeded_rows (Notification.id n)); eauto).
    congruence.
Qed.

(** C9 on the sample: e-mail fails, SMS succeeds, the flag is true. *)
Lemma C9_witness :
  exists n' new,
    notifications
      (snd (send_notification Sample.full_settings Sample.mail_down 1 "t" "m"
              None None Sample.st0)) !! 1%Z = Some n'
    /\ logs (snd (send_notification Sample.full_settings Sample.mail_down 1
                    "t" "m" None None Sample.st0))
       = logs Sample.st0 ++ new
    /\ (Notification.is_delivered n' = true
        <-> exists row, row ∈ new /\ NotificationLog.status row = true).
Proof.
  destruct (C9_flag_iff_logged_success Sample.full_settings Sample.mail_down
              1 "t" "m" None None Sample.st0
              (snd (send_notification Sample.full_settings Sample.mail_down 1
                      "t" "m" None None Sample.st0))
              (success_result "sms" 1) 1 eq_refl eq_refl)
    as (n' & new & Hn & Hl & _ & Hiff & _).
  exists n', new. auto.
Defined.

Lemma or_list_nonempty {A} (l b : list A) : l <> [] -> or_list (Some l) b = l.
Proof. destruct l; [contradiction | reflexivity]. Qed.

(** A name that is none of the three channels is answered by
    [_send_by_channel] itself, without any call. *)
Lemma unknown_channel_attempt (settings : Settings) (T : Transport)
    (profile : UserProfile.t) (title message c : string) (w : Net) :
  known_channel c = false ->
  attempt settings T profile title message c w
  = ((false, Some ("Неизвестный канал отправки: " +:+ c)), w).
Proof.
  unfold known_channel. rewrite !orb_false_iff. intros [[He Hs] Ht].
  unfold attempt, _send_by_channel. now rewrite He, Hs, Ht.
Qed.

(** C10: let an explicit channel list hold, after channels that all
    fail, a name [c] that is none of "email", "sms", "telegram", in a run
    that reaches the loop.  Then [_send_by_channel] answers [c] with the
    failure "Неизвестный канал отправки: c" without raising; a log row
    with status false and that text is added for [c]; the run goes on
    with the channels after [c] exactly as the loop does from there; and
    the task returns a result. *)
Theorem C10_unknown_channel_is_logged (settings : Settings) (T : Transport)
    (user_id : Z) (title message : string) (notification_id : option Z)
    (st st1 : State) (user : User.t) (n : Notification.t)
    (profile : UserProfile.t) (pre : list string) (c : string)
    (rest : list string) :
  known_channel c = false ->
  users st !! user_id = Some user ->
  _get_or_create_notification user title message notification_id st
  = (Ok (Some n), st1) ->
  profiles st !! User.id user = Some profile ->
  all_failed (outcomes settings T profile title message pre (network st))
  = true ->
  let os := outcomes settings T profile title message pre (network st) in
  let w := net_after settings T profile title message pre (network st) in
  let entry : Attempt :=
    (c, (false, Some ("Неизвестный канал отправки: " +:+ c))) in
  _send_by_channel settings T c profile title message w = (Ok (snd entry), w)
  /\ send_notification settings T user_id title message
       (Some (pre ++ c :: rest)) notification_id st
     = for_channel_in settings T rest (Some n) profile title message
         (logged st1 (Notification.id n) (os ++ [entry]) w)
  /\ exists r st' later,
       send_notification settings T user_id title message
         (Some (pre ++ c :: rest)) notification_id st
       = (Ok r, st')
       /\ logs st'
          = logs st ++ map (to_log (Notification.id n)) os
            ++ [ {| NotificationLog.notification := Notification.id n;
                    NotificationLog.channel := c;
                    NotificationLog.status := false;
                    NotificationLog.error_message :=
                      Some ("Неизвестный канал отправки: " +:+ c) |} ]
            ++ later.
Proof.
  intros Hc Hu Hn Hp F os w entry.
  destruct (get_or_create_frame _ _ _ _ _ _ _ Hn) as (_ & _ & Hl & Hw & _).
  assert (Hatt : attempt settings T profile title message c w = (snd entry, w))
    by (apply unknown_channel_attempt, Hc).
  assert (Hsend :
    send_notification settings T user_id title message
      (Some (pre ++ c :: rest)) notification_id st
    = for_channel_in settings T rest (Some n) profile title message
        (logged st1 (Notification.id n) (os ++ [entry]) w)).
  { rewrite (send_notification_resolved settings T _ _ _ _ _ _ _ _ _ Hu Hn).
    rewrite Hp, or_list_nonempty by (now destruct pre).
    replace (match pre ++ c :: rest with
             | [] => _
             | c0 :: l0 => _
             end)
      with (for_channel_in settings T (pre ++ c :: rest) (Some n) profile
              title message st1)
      by (now destruct pre).
    subst os w. rewrite <- Hw in *.
    rewrite loop_failed_prefix by exact F.
    rewrite loop_step_failed; simpl network; rewrite Hatt;
      [|reflexivity].
    now rewrite logged_logged. }
  split; [|split; [exact Hsend|]].
  - rewrite attempt_spec, Hatt. reflexivity.
  - rewrite Hsend.
    destruct (loop_run settings T n profile title message rest
                (logged st1 (Notification.id n) (os ++ [entry]) w))
      as (os' & r & Hrun & _).
    eexists r, _, (map (to_log (Notification.id n)) os').
    split; [exact Hrun|].
    simpl. rewrite Hl, map_app, <- !app_assoc. reflexivity.
Qed.

(** C10 on the sample: nothing is configured and the explicit list is
    "email", "fax", "sms"; "fax" is logged as unknown and "sms" is tried
    after it. *)
Lemma C10_witness :
  exists r st',
    send_notification Sample.no_settings Sample.all_up 1 "t" "m"
      (Some ["email"; "fax"; "sms"]) None Sample.st0
    = (Ok r, st')
    /\ map NotificationLog.channel (logs st') = ["email"; "fax"; "sms"]
    /\ map NotificationLog.error_message (logs st') !! 1
       = Some (Some "Неизвестный канал отправки: fax").
Proof.
  destruct (C10_unknown_channel_is_logged Sample.no_settings Sample.all_up
              1 "t" "m" None Sample.st0 Sample.st1 Sample.alice Sample.first
              Sample.alice_profile ["email"] "fax" ["sms"]
              eq_refl eq_refl eq_refl eq_refl eq_refl)
    as (_ & Hsend & _).
  eexists _, _. split; [etransitivity; [exact Hsend | reflexivity]|].
  split; reflexivity.
Defined.

Lemma available_channels_nil (profile : UserProfile.t) :
  _get_available_channels profile = []
  <-> ~ populated (UserProfile.email profile)
      /\ ~ populated (UserProfile.phone_number profile)
      /\ ~ populated (UserProfile.telegram_chat_id profile).
Proof.
  rewrite <- !truthy_populated. unfold _get_available_channels.
  destruct (truthy (UserProfile.email profile)),
    (truthy (UserProfile.phone_number profile)),
    (truthy (UserProfile.telegram_chat_id profile)); simpl;
    intuition discriminate.
Qed.

(** C1 as stated does not hold: with an explicit empty channel list and a
    profile whose three fields are populated, the task does not answer
    "Нет доступных каналов для отправки" with no log row; it sends the
    e-mail, logs one row and returns success. *)
Lemma C1_counterexample :
  populated (UserProfile.email Sample.alice_profile)
  /\ fst (send_notification Sample.full_settings Sample.all_up 1 "t" "m"
            (Some []) None Sample.st0)
     = Ok (success_result "email" 1)
  /\ map NotificationLog.channel
       (logs (snd (send_notification Sample.full_settings Sample.all_up 1 "t"
                     "m" (Some []) None Sample.st0)))
     = ["email"]
  /\ ~ (fst (send_notification Sample.full_settings Sample.all_up 1 "t" "m"
               (Some []) None Sample.st0)
        = Ok (error_result "Нет доступных каналов для отправки" 1)
        /\ logs (snd (send_notification Sample.full_settings Sample.all_up 1
                        "t" "m" (Some []) None Sample.st0))
           = logs Sample.st0).
Proof.
  split; [eexists; split; [reflexivity | discriminate]|].
  split; [reflexivity|]. split; [reflexivity|].
  intros [H _]. vm_compute in H. discriminate.
Qed.

(** C1, amended: a non-empty explicit channel list is the channel list of
    the run.  An explicit empty list is treated exactly like no list: the
    channels are then the ones selected from the profile.  So, in a run
    that reaches this point, the task called with an empty list returns
    the error "Нет доступных каналов для отправки" and adds no log row
    when no profile field is populated, and when some field is populated
    it tries the selected channels, adds at least one log row and returns
    another result. *)
Theorem C1_empty_list_is_auto_selection (settings : Settings) (T : Transport)
    (user_id : Z) (title message : string) (notification_id : option Z)
    (st : State) :
  send_notification settings T user_id title message (Some []) notification_id st
  = send_notification settings T user_id title message None notification_id st
  /\ forall st1 user n profile,
       users st !! user_id = Some user ->
       _get_or_create_notification user title message notification_id st
       = (Ok (Some n), st1) ->
       profiles st !! User.id user = Some profile ->
       (forall c l,
           send_notification settings T user_id title message (Some (c :: l))
             notification_id st
           = for_channel_in settings T (c :: l) (Some n) profile title
               message st1)
       /\ (~ populated (UserProfile.email profile)
           /\ ~ populated (UserProfile.phone_number profile)
           /\ ~ populated (UserProfile.telegram_chat_id profile) ->
           exists st',
             send_notification settings T user_id title message (Some [])
               notification_id st
             = (Ok (error_result "Нет доступных каналов для отправки"
                      (Notification.id n)), st')
             /\ logs st' = logs st)
       /\ (populated (UserProfile.email profile)
           \/ populated (UserProfile.phone_number profile)
           \/ populated (UserProfile.telegram_chat_id profile) ->
           send_notification settings T user_id title message (Some [])
             notification_id st
           = for_channel_in settings T (_get_available_channels profile)
               (Some n) profile title message st1
           /\ exists r st' row new,
                send_notification settings T user_id title message (Some [])
                  notification_id st
                = (Ok r, st')
                /\ logs st' = logs st ++ row :: new
                /\ Result.message r
                   <> Some "Нет доступных каналов для отправки").
Proof.
  split; [reflexivity|].
  intros st1 user n profile Hu Hn Hp.
  destruct (get_or_create_frame _ _ _ _ _ _ _ Hn) as (_ & _ & Hl & _).
  split; [|split].
  - intros c l.
    rewrite (send_notification_resolved settings T _ _ _ _ _ _ _ _ _ Hu Hn).
    now rewrite Hp.
  - intros Hnone. apply available_channels_nil in Hnone.
    rewrite (send_notification_resolved settings T _ _ _ _ _ _ _ _ _ Hu Hn).
    rewrite Hp. simpl or_list. rewrite Hnone.
    eexists. split; [reflexivity|]. exact Hl.
  - intros Hsome.
    assert (Hne : _get_available_channels profile <> []).
    { intros E. apply available_channels_nil in E. tauto. }
    assert (Hsend :
      send_notification settings T user_id title message (Some [])
        notification_id st
      = for_channel_in settings T (_get_available_channels profile) (Some n)
          profile title message st1).
    { rewrite (send_notification_resolved settings T _ _ _ _ _ _ _ _ _ Hu Hn).
      rewrite Hp. simpl or_list.
      destruct (_get_available_channels profile); [contradiction|reflexivity]. }
    split; [exact Hsend|]. rewrite Hsend.
    destruct (loop_run settings T n profile title message
                (_get_available_channels profile) st1)
      as (os & r & Hrun & _ & Hr).
    rewrite Hrun.
    assert (Hos : os <> []).
    { destruct Hr as [(_ & _ & ->) | (c & _ & He)].
      - destruct (_get_available_channels profile); [contradiction|].
        discriminate.
      - intros ->. discriminate. }
    destruct os as [|a os]; [contradiction|].
    exists r, (saved (logged st1 (Notification.id n) (a :: os)
                       (net_after settings T profile title message
                          (map fst (a :: os)) (network st1)))
                 n (existsb succeeded (a :: os))),
      (to_log (Notification.id n) a), (map (to_log (Notification.id n)) os).
    split; [reflexivity|]. split; [simpl; now rewrite Hl|].
    destruct Hr as [(-> & _) | (c & -> & _)]; simpl; discriminate.
Qed.

(** C1 (amended) on the sample: nothing is configured, the explicit list
    is empty, and the three channels of the profile are tried. *)
Lemma C1_witness :
  exists r st',
    send_notification Sample.no_settings Sample.all_up 1 "t" "m" (Some [])
      None Sample.st0
    = (Ok r, st')
    /\ 1 <= length (logs st')
    /\ Result.message r <> Some "Нет доступных каналов для отправки".
Proof.
  destruct (C1_empty_list_is_auto_selection Sample.no_settings Sample.all_up
              1 "t" "m" None Sample.st0) as [_ H].
  destruct (H Sample.st1 Sample.alice Sample.first Sample.alice_profile
              eq_refl eq_refl eq_refl) as (_ & _ & Hsome).
  destruct Hsome as (_ & r & st' & row & new & Hrun & Hlogs & Hmsg).
  { left. eexists. split; [reflexivity | discriminate]. }
  exists r, st'. split; [exact Hrun|]. split; [|exact Hmsg].
  rewrite Hlogs. simpl. apply le_n_S, Nat.le_0_l.
Defined.

(** C2, where the code departs from the claim: when the recipient exists
    and the explicit notification id (not [0]) names no notification, the
    task returns no result at all.  [_get_or_create_notification] answers
    [None] and the task goes on with it: it raises [AttributeError] at
    the first [notification.is_delivered = ...] (no profile, or no
    channel), or, after the first channel has been handed to its sender,
    [IntegrityError] at the insertion of the log row.  No notification is
    created and no log row is added. *)
Theorem C2_missing_notification_raises (settings : Settings) (T : Transport)
    (user_id : Z) (title message : string) (channels : option (list string))
    (i : Z) (st : State) (user : User.t) :
  users st !! user_id = Some user ->
  i <> 0%Z ->
  notifications st !! i = None ->
  exists e st',
    send_notification settings T user_id title message channels (Some i) st
    = (Raise e, st')
    /\ notifications st' = notifications st
    /\ next_notification_id st' = next_notification_id st
    /\ logs st' = logs st
    /\ ((e = AttributeError "'NoneType' object has no attribute 'is_delivered'"
         /\ st' = st)
        \/ (exists c,
              e = IntegrityError
                    "NOT NULL constraint failed: notification_app_notificationlog.notification_id"
              /\ tried st' = tried st ++ [c])).
Proof.
  intros Hu Hi Hn.
  rewrite (send_notification_unresolved settings T _ _ _ _ _ _ _ Hu Hi Hn).
  destruct (profiles st !! User.id user) as [profile|].
  - destruct (or_list channels (_get_available_channels profile)) as [|c l].
    + eexists _, _. split; [reflexivity|]. auto 10.
    + eexists _, _. split; [reflexivity|]. simpl. eauto 10.
  - eexists _, _. split; [reflexivity|]. auto 10.
Qed.

(** C2 at the failing input: user 1 exists with a full profile, no
    notification has id 999, every service is up.  The e-mail leaves
    before the task raises. *)
Lemma C2_witness :
  exists st',
    send_notification Sample.full_settings Sample.all_up 1 "t" "m" None
      (Some 999%Z) Sample.st0
    = (Raise (IntegrityError
         "NOT NULL constraint failed: notification_app_notificationlog.notification_id"),
       st')
    /\ network st'
       = [smtp_send "t" "m" (Some "noreply@mail.test") ["alice@example.org"]]
    /\ logs st' = [] /\ notifications st' = ∅.
Proof.
  destruct (C2_missing_notification_raises Sample.full_settings Sample.all_up
              1 "t" "m" None 999 Sample.st0 Sample.alice
              eq_refl ltac:(discriminate) eq_refl)
    as (e & st' & Hrun & Hn & _ & Hl & _).
  exists st'. rewrite Hn, Hl.
  assert (E : (Raise e, st')
              = send_notification Sample.full_settings Sample.all_up 1 "t" "m"
                  None (Some 999%Z) Sample.st0) by (symmetry; exact Hrun).
  vm_compute in E. injection E as -> ->.
  repeat split; reflexivity.
Defined.

(** A setting that gives no value reads as a false value through
    [getattr(settings, name, None)]. *)
Lemma absent_falsy (v : Setting) :
  absent v = true -> truthy (getattr_default v None) = false.
Proof.
  destruct v as [| |s]; simpl; auto.
  intros H. now rewrite H.
Qed.

(** C7 as stated does not hold.  With the mail settings absent,
    [send_email] called with ["not-an-email"] fails before any call, but
    with the text of the address check, "Некорректный email-адрес", not
    with the "not configured" text.  And with the Twilio names not
    defined at all, [send_sms] called with a well-formed number fails
    before any call with the text of the attribute error. *)
Lemma C7_counterexample :
  mail_unconfigured Sample.no_settings = true
  /\ send_email Sample.no_settings Sample.all_up (Some "not-an-email") "t" "m" []
     = (Ok (false, Some "Некорректный email-адрес"), [])
  /\ send_email Sample.no_settings Sample.all_up (Some "not-an-email") "t" "m" []
     <> (Ok (false, Some "Настройки SMTP сервера не настроены"), [])
  /\ sms_unconfigured Sample.bare_settings = true
  /\ send_sms Sample.bare_settings Sample.all_up (Some "+1 (555) 123-4567") "m" []
     = (Ok (false,
            Some "'Settings' object has no attribute 'TWILIO_ACCOUNT_SID'"), [])
  /\ send_sms Sample.bare_settings Sample.all_up (Some "+1 (555) 123-4567") "m" []
     <> (Ok (false, Some "Не настроены параметры Twilio SMS-сервиса"), []).
Proof.
  split; [reflexivity|]. split; [reflexivity|].
  split; [intros H; vm_compute in H; discriminate|].
  split; [reflexivity|]. split; [reflexivity|].
  intros H. vm_compute in H. discriminate.
Qed.

(** C7, amended: when a required setting of a channel gives no value, the
    sender of that channel fails without making any call, whatever the
    address.  The failure carries the "not configured" text whenever the
    address passed the sender's own check, which comes first, and, for
    SMS and Telegram, whenever the names are defined in the settings (a
    name that is not defined at all is reported with the text of the
    attribute error).  A failed attempt only costs its own turn: the loop
    logs it and goes on with the next channel. *)
Theorem C7_unconfigured_channel_fails_alone (settings : Settings)
    (T : Transport) :
  (forall email title message w,
      mail_unconfigured settings = true ->
      (exists e, send_email settings T email title message w
                 = (Ok (false, e), w))
      /\ (email_valid email = true ->
          send_email settings T email title message w
          = (Ok (false, Some "Настройки SMTP сервера не настроены"), w)))
  /\ (forall phone message w,
         sms_unconfigured settings = true ->
         (exists e, send_sms settings T phone message w = (Ok (false, e), w))
         /\ (phone_valid phone = true -> sms_defined settings = true ->
             send_sms settings T phone message w
             = (Ok (false, Some "Не настроены параметры Twilio SMS-сервиса"),
                w)))
  /\ (forall chat_id message w,
         telegram_unconfigured settings = true ->
         (exists e, send_telegram settings T chat_id message w
                    = (Ok (false, e), w))
         /\ (truthy chat_id = true -> TELEGRAM_BOT_TOKEN settings <> Unset ->
             send_telegram settings T chat_id message w
             = (Ok (false, Some "Не настроен токен Telegram бота"), w)))
  /\ (forall c rest n profile title message st e w',
         _send_by_channel settings T c profile title message (network st)
         = (Ok (false, e), w') ->
         for_channel_in settings T (c :: rest) (Some n) profile title message st
         = for_channel_in settings T rest (Some n) profile title message
             (logged st (Notification.id n) [(c, (false, e))] w')).
Proof.
  split; [|split; [|split]].
  - intros email title message w H.
    assert (Hcheck :
      negb (truthy (getattr_default (EMAIL_HOST settings) None))
      || bool_decide (getattr_default (EMAIL_HOST settings) None
                      = Some "smtp.example.com")
      || negb (truthy (getattr_default (EMAIL_HOST_USER settings) None))
      = true).
    { unfold mail_unconfigured in H. apply orb_true_iff in H as [H|H];
        rewrite (absent_falsy _ H); simpl; auto using orb_true_r. }
    unfold send_email, try_except, email_valid.
    destruct (truthy email); simpl.
    + destruct (Re.re_match email_pattern (text email)); simpl.
      * rewrite Hcheck. simpl. split; eauto.
      * split; [eauto | discriminate].
    + split; [eauto | discriminate].
  - intros phone message w H.
    unfold send_sms, try_except, phone_valid, sms_defined.
    unfold sms_unconfigured, absent, blank in H.
    rewrite Nat.ltb_antisym.
    set (long := (10 <=? String.length
                           (Re.re_sub_empty Re.non_digit (text phone)))%nat).
    destruct (truthy phone); simpl; [|split; [eauto | discriminate]].
    destruct long; simpl; [|split; [eauto | discriminate]].
    destruct (TWILIO_ACCOUNT_SID settings) as [| |sid],
      (TWILIO_AUTH_TOKEN settings) as [| |token],
      (TWILIO_PHONE_NUMBER settings) as [| |number];
      simpl in *; run;
      repeat match goal with
             | |- context [String.eqb ?s ""] => destruct (String.eqb s "")
             | H : context [String.eqb ?s ""] |- _ => destruct (String.eqb s "")
             end;
      simpl in *; try discriminate; split; eauto; discriminate.
  - intros chat_id message w H.
    unfold send_telegram, try_except.
    unfold telegram_unconfigured, absent, blank in H.
    destruct (truthy chat_id); simpl; [|split; [eauto | discriminate]].
    destruct (TELEGRAM_BOT_TOKEN settings) as [| |token]; simpl in *; run.
    + split; [eauto | congruence].
    + split; eauto.
    + rewrite H. simpl. split; eauto.
  - intros c rest n profile title message st e w' H.
    assert (Hatt : attempt settings T profile title message c (network st)
                   = ((false, e), w'))
      by (unfold attempt; now rewrite H).
    rewrite loop_step_failed; rewrite Hatt; reflexivity.
Qed.

(** C7 (amended) on the sample: nothing is configured; each sender, given
    a well-formed address, fails with its "not configured" text and the
    network stays empty; the loop, given "email" then "sms", logs the
    first failure and goes on with "sms". *)
Lemma C7_witness :
  send_email Sample.no_settings Sample.all_up (Some "alice@example.org") "t" "m" []
  = (Ok (false, Some "Настройки SMTP сервера не настроены"), [])
  /\ send_sms Sample.no_settings Sample.all_up (Some "+1 (555) 123-4567") "m" []
     = (Ok (false, Some "Не настроены параметры Twilio SMS-сервиса"), [])
  /\ send_telegram Sample.no_settings Sample.all_up (Some "4242") "m" []
     = (Ok (false, Some "Не настроен токен Telegram бота"), [])
  /\ for_channel_in Sample.no_settings Sample.all_up ["email"; "sms"]
       (Some Sample.first) Sample.alice_profile "t" "m" Sample.st1
     = for_channel_in Sample.no_settings Sample.all_up ["sms"]
         (Some Sample.first) Sample.alice_profile "t" "m"
         (logged Sample.st1 1
            [("email", (false, Some "Настройки SMTP сервера не настроены"))]
            []).
Proof.
  destruct (C7_unconfigured_channel_fails_alone Sample.no_settings
              Sample.all_up) as (Hmail & Hsms & Htg & Hloop).
  split; [apply Hmail; reflexivity|].
  split; [apply Hsms; reflexivity|].
  split; [apply Htg; [reflexivity | reflexivity | discriminate]|].
  apply Hloop. reflexivity.
Defined.

(* ================================================================== *)
(** * Part IV: further properties of the code                          *)
(* ================================================================== *)

Import Audit.

(** ** The calls of the senders *)

(** What each sender may add to the network history, and that a success
    carries no error text. *)
Lemma send_email_call (settings : Settings) (T : Transport)
    (email : option string) (title message : string) (w w' : Net)
    (b : bool) (e : option string) :
  send_email settings T email title message w = (Ok (b, e), w') ->
  (b = true -> e = None)
  /\ ((b = false /\ w' = w)
      \/ exists from_email,
           w' = w ++ [smtp_send title message from_email [text email]]).
Proof.
  unfold send_email. intros H. run. cases; split; try discriminate; eauto.
Qed.

Lemma send_sms_call (settings : Settings) (T : Transport)
    (phone : option string) (message : string) (w w' : Net)
    (b : bool) (e : option string) :
  send_sms settings T phone message w = (Ok (b, e), w') ->
  (b = true -> e = None)
  /\ ((b = false /\ w' = w)
      \/ exists sid token from_,
           w' = w ++ [twilio_create sid token message from_
                        ("+" +:+ Re.re_sub_empty Re.non_digit (text phone))]).
Proof.
  unfold send_sms. intros H. run. cases; split; try discriminate; eauto 10.
Qed.

Lemma send_telegram_call (settings : Settings) (T : Transport)
    (chat_id : option string) (message : string) (w w' : Net)
    (b : bool) (e : option string) :
  send_telegram settings T chat_id message w = (Ok (b, e), w') ->
  (b = true -> e = None)
  /\ ((b = false /\ w' = w)
      \/ exists url,
           w' = w ++ [http_post url (text chat_id) message "HTML" 10]).
Proof.
  unfold send_telegram. intros H. run. cases; split; try discriminate; eauto.
Qed.

(** The same for [_send_by_channel]: at most one call, through the
    channel asked for and to the address of the profile. *)
Lemma by_channel_call (settings : Settings) (T : Transport)
    (channel : string) (profile : UserProfile.t) (title message : string)
    (w w' : Net) (b : bool) (e : option string) :
  _send_by_channel settings T channel profile title message w
  = (Ok (b, e), w') ->
  (b = true -> e = None)
  /\ ((b = false /\ w' = w)
      \/ (exists call,
             w' = w ++ [call] /\ channel_of call = channel
             /\ addressed_to profile title message call)).
Proof.
  unfold _send_by_channel.
  destruct (String.eqb_spec channel NotificationChannel.EMAIL) as [->|_].
  { destruct (truthy (UserProfile.email profile)) eqn:Ha; simpl.
    - intros H. apply send_email_call in H as [He [(-> & ->) | (f & ->)]].
      + split; [discriminate | left; auto].
      + split; [exact He|]. right. eexists. split; [reflexivity|].
        split; [reflexivity|]. simpl. apply truthy_populated in Ha. auto.
    - intros [= <- <- <-]. split; [discriminate | left; auto]. }
  destruct (String.eqb_spec channel NotificationChannel.SMS) as [->|_].
  { destruct (truthy (UserProfile.phone_number profile)) eqn:Ha; simpl.
    - intros H. apply send_sms_call in H
        as [He [(-> & ->) | (sid & token & from_ & ->)]].
      + split; [discriminate | left; auto].
      + split; [exact He|]. right. eexists. split; [reflexivity|].
        split; [reflexivity|]. simpl. apply truthy_populated in Ha. auto.
    - intros [= <- <- <-]. split; [discriminate | left; auto]. }
  destruct (String.eqb_spec channel NotificationChannel.TELEGRAM) as [->|_].
  { destruct (truthy (UserProfile.telegram_chat_id profile)) eqn:Ha; simpl.
    - intros H. apply send_telegram_call in H
        as [He [(-> & ->) | (url & ->)]].
      + split; [discriminate | left; auto].
      + split; [exact He|]. right. eexists. split; [reflexivity|].
        split; [reflexivity|]. simpl. apply truthy_populated in Ha. auto.
    - intros [= <- <- <-]. split; [discriminate | left; auto]. }
  intros [= <- <- <-]. split; [discriminate | left; auto].
Qed.

(** ** What a sender may do to the network *)

(** [send_email] makes no call and fails, or makes exactly one call: the
    SMTP submission of the given title and message to the given address
    alone.  It makes that call only for an address that passed the check
    and with a host and a user set, the host not being the placeholder
    ["smtp.example.com"].  It succeeds exactly when the submission
    returns, and then reports no error text; when the submission raises,
    the error text is the text of the exception. *)
Theorem send_email_effect (settings : Settings) (T : Transport)
    (email : option string) (title message : string) (w w' : Net)
    (b : bool) (e : option string) :
  send_email settings T email title message w = (Ok (b, e), w') ->
  (b = false /\ w' = w /\ e <> None)
  \/ (exists host user from_email,
         email_valid email = true
         /\ EMAIL_HOST settings = Str host /\ host <> ""
         /\ host <> "smtp.example.com"
         /\ EMAIL_HOST_USER settings = Str user /\ user <> ""
         /\ DEFAULT_FROM_EMAIL settings <> Unset
         /\ from_email = getattr_default (DEFAULT_FROM_EMAIL settings) None
         /\ w' = w ++ [smtp_send title message from_email [text email]]
         /\ ((b = true /\ e = None
              /\ smtp T w title message from_email [text email] = Ok tt)
             \/ (exists x, b = false /\ e = Some (str x)
                           /\ smtp T w title message from_email [text email]
                              = Raise x))).
Proof.
  unfold send_email, try_except, email_valid.
  destruct (truthy email); simpl;
    [|intros [= <- <- <-]; left; repeat split; discriminate].
  destruct (Re.re_match email_pattern (text email)); simpl;
    [|intros [= <- <- <-]; left; repeat split; discriminate].
  destruct (EMAIL_HOST settings) as [| |host] eqn:Hh; simpl;
    try (intros [= <- <- <-]; left; repeat split; discriminate).
  destruct (String.eqb_spec host ""); simpl;
    [intros [= <- <- <-]; left; repeat split; discriminate|].
  case_bool_decide as Hp; simpl;
    [intros [= <- <- <-]; left; repeat split; discriminate|].
  destruct (EMAIL_HOST_USER settings) as [| |user] eqn:Hu; simpl;
    try (intros [= <- <- <-]; left; repeat split; discriminate).
  destruct (String.eqb_spec user ""); simpl;
    [intros [= <- <- <-]; left; repeat split; discriminate|].
  destruct (DEFAULT_FROM_EMAIL settings) as [| |from] eqn:Hf; run;
    [intros [= <- <- <-]; left; repeat split; discriminate| |].
  all: destruct (smtp T w title message _ [text email]) as [[]|x] eqn:Hs;
    simpl; intros [= <- <- <-]; right;
    eexists host, user, _.
  all: repeat split; try done; try congruence.
  all: first [left; by repeat split | right; eexists; by repeat split].
Qed.

(** On the sample: everything is configured and the mail server
    accepts. *)
Lemma send_email_effect_witness :
  exists from_email,
    [smtp_send "t" "m" (Some "noreply@mail.test") ["alice@example.org"]]
    = [] ++ [smtp_send "t" "m" from_email [text (Some "alice@example.org")]].
Proof.
  destruct (send_email_effect Sample.full_settings Sample.all_up
              (Some "alice@example.org") "t" "m" []
              [smtp_send "t" "m" (Some "noreply@mail.test")
                 ["alice@example.org"]] true None eq_refl)
    as [(H & _) | (host & user & from_email & _ & _ & _ & _ & _ & _ & _ & _
                   & Hw & _)].
  - discriminate H.
  - exists from_email. exact Hw.
Defined.

(** What [re.sub(r'\D', '', phone)] leaves: digits only, the digits of
    the input in their order, and nothing to remove a second time. *)
Lemma digits_only (s : string) :
  Re.all_chars Re.digit (Re.re_sub_empty Re.non_digit s) = true.
Proof.
  induction s as [|c s IH]; simpl; [reflexivity|].
  unfold Re.non_digit at 1. destruct (Re.digit c) eqn:E; simpl; [|exact IH].
  now rewrite E, IH.
Qed.

Lemma digits_kept (s : string) :
  Re.all_chars Re.digit s = true -> Re.re_sub_empty Re.non_digit s = s.
Proof.
  induction s as [|c s IH]; simpl; [reflexivity|].
  intros H. apply andb_true_iff in H as [Hc Hs].
  rewrite IH by exact Hs. unfold Re.non_digit. now rewrite Hc.
Qed.

(** Normalising a phone number twice changes nothing more, and what is
    left has only digits. *)
Lemma phone_cleaned_idempotent (s : string) :
  Re.re_sub_empty Re.non_digit (Re.re_sub_empty Re.non_digit s)
  = Re.re_sub_empty Re.non_digit s
  /\ Re.all_chars Re.digit (Re.re_sub_empty Re.non_digit s) = true
  /\ String.length (Re.re_sub_empty Re.non_digit s) <= String.length s.
Proof.
  split; [apply digits_kept, digits_only|]. split; [apply digits_only|].
  induction s as [|c s IH]; simpl; [lia|].
  destruct (Re.non_digit c); simpl; lia.
Qed.



(** [send_telegram] makes no call and fails with a text, or makes exactly
    one call: a POST to the [sendMessage] address of the configured bot,
    with the given chat, the given message, the HTML parse mode and a
    timeout of ten seconds.  It succeeds exactly when the reply has no
    error status and its body is a JSON object whose ["ok"] is true.
    A reply with an error status is reported behind
    "Ошибка сервиса Telegram: ".  A body that says ["ok"] is false is
    reported by its description, by "Неизвестная ошибка" when it has
    none, and by no text at all when the description is [null]. *)
Theorem send_telegram_effect (settings : Settings) (T : Transport)
    (chat_id : option string) (message : string) (w w' : Net)
    (b : bool) (e : option string) :
  send_telegram settings T chat_id message w = (Ok (b, e), w') ->
  (b = false /\ w' = w /\ e <> None)
  \/ (exists token url,
         TELEGRAM_BOT_TOKEN settings = Str token /\ token <> ""
         /\ truthy chat_id = true
         /\ url = "https://api.telegram.org/bot" +:+ token +:+ "/sendMessage"
         /\ w' = w ++ [http_post url (text chat_id) message "HTML" 10]
         /\ (b = true
             <-> exists r d,
                   telegram T w url (text chat_id) message "HTML" 10 = Ok r
                   /\ status_error r = None /\ json r = Ok (JDict true d))
         /\ (b = true -> e = None)
         /\ (forall r t,
                telegram T w url (text chat_id) message "HTML" 10 = Ok r ->
                status_error r = Some t ->
                e = Some ("Ошибка сервиса Telegram: " +:+ t))
         /\ (forall r d,
                telegram T w url (text chat_id) message "HTML" 10 = Ok r ->
                status_error r = None -> json r = Ok (JDict false d) ->
                e = match d with
                    | None => Some "Неизвестная ошибка"
                    | Some v => v
                    end)).
Proof.
  unfold send_telegram, try_except.
  destruct (truthy chat_id) eqn:Hc; simpl;
    [|intros [= <- <- <-]; left; repeat split; discriminate].
  destruct (TELEGRAM_BOT_TOKEN settings) as [| |token] eqn:Ht; run;
    try (intros [= <- <- <-]; left; repeat split; discriminate).
  destruct (String.eqb_spec token ""); simpl;
    [intros [= <- <- <-]; left; repeat split; discriminate|].
  set (url := "https://api.telegram.org/bot" +:+ token +:+ "/sendMessage").
  intros H. right. exists token, url.
  do 4 (split; [done|]).
  destruct (telegram T w url (text chat_id) message "HTML" 10)
    as [[[t|] [[[|] d|ty]|x]]|x] eqn:Hr; simpl in H;
    try (destruct x; simpl in H); try (destruct d as [d|]; simpl in H);
    injection H as <- <- <-.
  all: split; [reflexivity|].
  all: split; [split; [try discriminate; eauto
                      | try reflexivity;
                        intros (r & d' & [= <-] & Hs & Hj);
                        simpl in *; congruence]|].
  all: split; [try discriminate; auto|].
  all: split; [intros r t' [= <-]; simpl; congruence|].
  all: intros r d' [= <-]; simpl; intros; simplify_eq; try reflexivity.
Qed.

(** On the sample: Telegram answers ["ok"]. *)
Lemma send_telegram_effect_witness :
  exists token url,
    url = "https://api.telegram.org/bot" +:+ token +:+ "/sendMessage"
    /\ [http_post "https://api.telegram.org/bot77:token/sendMessage" "4242"
          "m" "HTML" 10]
       = [] ++ [http_post url (text (Some "4242")) "m" "HTML" 10].
Proof.
  destruct (send_telegram_effect Sample.full_settings Sample.all_up
              (Some "4242") "m" []
              [http_post "https://api.telegram.org/bot77:token/sendMessage"
                 "4242" "m" "HTML" 10] true None eq_refl)
    as [(H & _) | (token & url & _ & _ & _ & Hurl & Hw & _)].
  - discriminate H.
  - exists token, url. split; [exact Hurl | exact Hw].
Defined.

(** ** The two address checks *)

Lemma all_chars_app (cls : ascii -> bool) (a b : string) :
  Re.all_chars cls (a +:+ b) = Re.all_chars cls a && Re.all_chars cls b.
Proof.
  induction a as [|c a IH]; [reflexivity|].
  change (String c a +:+ b) with (String c (a +:+ b)). simpl.
  now rewrite IH, andb_assoc.
Qed.

(** The pattern of [send_email] is only anchored at the start of the
    address: an address that passes still passes with anything appended
    to it, further ["@"] included.  An address without ["@"] never
    passes, and neither does an address without ["."]. *)
Theorem email_check_ignores_the_tail (s rest : string) :
  (email_valid (Some s) = true -> email_valid (Some (s +:+ rest)) = true)
  /\ (Re.all_chars (Re.not_char "@") s = true -> email_valid (Some s) = false)
  /\ (Re.all_chars (Re.not_char ".") s = true -> email_valid (Some s) = false).
Proof.
  split; [|split].
  - intros H. apply email_valid_shape in H
      as (l & d & x & tl & -> & Hl & Hd & Hx).
    apply email_valid_shape. exists l, d, x, (tl +:+ rest).
    split; [|auto]. now rewrite !append_assoc.
  - intros H. apply not_true_is_false. intros Hv.
    apply email_valid_shape in Hv as (l & d & x & tl & -> & _).
    rewrite all_chars_app in H. apply andb_true_iff in H as [_ H].
    change ("@" +:+ d +:+ "." +:+ x +:+ tl)
      with (String "@" (d +:+ "." +:+ x +:+ tl)) in H.
    simpl in H. discriminate.
  - intros H. apply not_true_is_false. intros Hv.
    apply email_valid_shape in Hv as (l & d & x & tl & -> & _).
    rewrite all_chars_app in H. apply andb_true_iff in H as [_ H].
    change ("@" +:+ d +:+ "." +:+ x +:+ tl)
      with (String "@" (d +:+ "." +:+ x +:+ tl)) in H.
    simpl in H. rewrite all_chars_app in H.
    apply andb_true_iff in H as [_ H].
    change ("." +:+ x +:+ tl) with (String "." (x +:+ tl)) in H.
    simpl in H. discriminate.
Qed.

Lemma email_check_witness :
  email_valid (Some ("a@b.c" +:+ "@@ not an address")) = true.
Proof.
  apply (email_check_ignores_the_tail "a@b.c" "@@ not an address").
  reflexivity.
Defined.



(** ** What [_send_by_channel] may do *)



(** A channel for which the profile holds no address is answered by
    [_send_by_channel] itself, whatever the settings and the services:
    the failure names the missing field and no call is made. *)
Theorem send_by_channel_needs_address (settings : Settings) (T : Transport)
    (profile : UserProfile.t) (title message : string) (w : Net) :
  (~ populated (UserProfile.email profile) ->
   _send_by_channel settings T "email" profile title message w
   = (Ok (false, Some "Email пользователя не указан"), w))
  /\ (~ populated (UserProfile.phone_number profile) ->
      _send_by_channel settings T "sms" profile title message w
      = (Ok (false, Some "Номер телефона пользователя не указан"), w))
  /\ (~ populated (UserProfile.telegram_chat_id profile) ->
      _send_by_channel settings T "telegram" profile title message w
      = (Ok (false, Some "Telegram ID пользователя не указан"), w)).
Proof.
  rewrite <- !truthy_populated. unfold _send_by_channel. simpl.
  repeat split; intros H; apply not_true_is_false in H; now rewrite H.
Qed.

Lemma send_by_channel_needs_address_witness :
  _send_by_channel Sample.full_settings Sample.all_up "email"
    Desk.bare_profile "t" "m" []
  = (Ok (false, Some "Email пользователя не указан"), []).
Proof.
  apply (send_by_channel_needs_address Sample.full_settings Sample.all_up
           Desk.bare_profile "t" "m" []).
  intros (s & [= <-] & Hne). now apply Hne.
Defined.

(** [attempt] in the same terms. *)
Lemma attempt_effect (settings : Settings) (T : Transport)
    (profile : UserProfile.t) (title message channel : string) (w : Net) :
  (fst (fst (attempt settings T profile title message channel w)) = false
   /\ snd (attempt settings T profile title message channel w) = w)
  \/ (exists call,
         snd (attempt settings T profile title message channel w)
         = w ++ [call]
         /\ channel_of call = channel
         /\ addressed_to profile title message call).
Proof.
  pose proof (attempt_spec settings T channel profile title message w) as H.
  destruct (attempt settings T profile title message channel w) as [[b e] w'].
  apply by_channel_call in H as (_ & H). exact H.
Qed.

(** The calls made while the channels of a list are tried: at most one
    per channel, in the order of the list, each one to the profile. *)
Lemma net_after_calls (settings : Settings) (T : Transport)
    (profile : UserProfile.t) (title message : string) (l : list string) :
  forall w,
    exists calls,
      net_after settings T profile title message l w = w ++ calls
      /\ sublist (map channel_of calls) l
      /\ Forall (addressed_to profile title message) calls.
Proof.
  induction l as [|c l IH]; intros w; simpl.
  - exists []. rewrite app_nil_r. repeat split; constructor.
  - destruct (attempt_effect settings T profile title message c w)
      as [(_ & ->) | (call & -> & Hc & Ha)].
    + destruct (IH w) as (calls & -> & Hs & Hf).
      exists calls. repeat split; auto. now apply sublist_cons.
    + destruct (IH (w ++ [call])) as (calls & -> & Hs & Hf).
      exists (call :: calls). rewrite <- app_assoc. simpl.
      repeat split; auto. rewrite Hc. now apply sublist_skip.
Qed.

(** ** Every run of the task *)

(** The two ways in which the notification step answers a notification:
    the row of the given id, the tables being left alone, or a new row
    under the next key. *)
Lemma get_or_create_resolved (user : User.t) (title message : string)
    (notification_id : option Z) (st st1 : State) (n : Notification.t) :
  _get_or_create_notification user title message notification_id st
  = (Ok (Some n), st1) ->
  (st1 = st
   /\ exists i, notification_id = Some i /\ i <> 0%Z
                /\ notifications st !! i = Some n)
  \/ (truthy_int notification_id = false
      /\ n = {| Notification.id := next_notification_id st;
                Notification.user := User.id user;
                Notification.title := title;
                Notification.message := message;
                Notification.is_delivered := false |}
      /\ st1 = set_notifications st
                 (<[next_notification_id st := n]> (notifications st))
                 (next_notification_id st + 1)).
Proof.
  unfold _get_or_create_notification, try_get, objects_get.
  destruct (truthy_int notification_id) eqn:E.
  - destruct notification_id as [i|]; [|discriminate]. simpl in *.
    destruct (notifications st !! i) as [row|] eqn:Hrow; simpl;
      intros [= <- <-]. left. split; [reflexivity|].
    exists i. repeat split; auto.
    intros ->. discriminate.
  - simpl. intros [= <- <-]. right. auto.
Qed.

(** The loop, with the shape of the rows it adds: failures only, for
    every channel of the list, or failures followed by one success that
    ends the list of rows and is the channel of the result. *)
Lemma loop_rows (settings : Settings) (T : Transport) (n : Notification.t)
    (profile : UserProfile.t) (title message : string) (l : list string)
    (st : State) :
  exists (os : list Attempt) (r : Result.t),
    for_channel_in settings T l (Some n) profile title message st
    = (Ok r,
       saved (logged st (Notification.id n) os
                (net_after settings T profile title message (map fst os)
                   (network st))) n (existsb succeeded os))
    /\ os `prefix_of` outcomes settings T profile title message l (network st)
    /\ ((all_failed os = true /\ existsb succeeded os = false
         /\ map fst os = l
         /\ r = error_result "Не удалось доставить ни по одному каналу"
                  (Notification.id n))
        \/ (exists pre a,
               os = pre ++ [a] /\ all_failed pre = true
               /\ succeeded a = true /\ existsb succeeded os = true
               /\ r = success_result (fst a) (Notification.id n))).
Proof.
  set (outs := outcomes settings T profile title message l (network st)).
  destruct (first_success outs) as [k|] eqn:F.
  - destruct (loop_first_success settings T n profile title message l k st F)
      as (c & Hc & Hrun).
    destruct (first_success_take _ _ F) as (pre & a & Ht & Hlen & Hpre & Ha).
    pose proof (first_success_pos _ _ F) as Hk.
    assert (He : existsb succeeded (take k outs) = true).
    { rewrite Ht, existsb_app. simpl. rewrite Ha. now rewrite orb_true_r. }
    assert (Hfst : fst a = c).
    { assert (E : take k outs !! pred k = Some a).
      { rewrite Ht, lookup_app_r by lia.
        now rewrite Hlen, Nat.sub_diag. }
      rewrite lookup_take_lt in E by lia.
      pose proof (list_lookup_fmap fst outs (pred k)) as E'.
      unfold Attempt in *. rewrite E in E'. simpl in E'.
      change (fst <$> outs) with (map fst outs) in E'.
      unfold outs in E'. rewrite outcomes_channels in E'. congruence. }
    exists (take k outs), (success_result c (Notification.id n)).
    rewrite He. unfold outs at 2. rewrite outcomes_take, outcomes_channels.
    split; [exact Hrun|]. split; [apply prefix_take|].
    right. exists pre, a. rewrite Hfst. auto.
  - apply first_success_none in F.
    assert (He : existsb succeeded outs = false).
    { revert F. unfold all_failed.
      induction outs as [|a os IH]; simpl; auto.
      intros H. apply andb_true_iff in H as [Ha Hos].
      apply negb_true_iff in Ha. rewrite Ha. auto. }
    exists outs, (error_result "Не удалось доставить ни по одному каналу"
                    (Notification.id n)).
    rewrite He. unfold outs at 2 4. rewrite outcomes_channels.
    split; [now apply loop_all_failed|]. split; [reflexivity|]. left.
    repeat split; auto. apply outcomes_channels.
Qed.

(** A run of the task that has the recipient and the notification at
    hand: it returns; the attempts [os] are logged, the calls [calls] are
    made, and the notification is saved with the flag of the attempts. *)
Lemma resolved_run (settings : Settings) (T : Transport) (user_id : Z)
    (title message : string) (channels : option (list string))
    (notification_id : option Z) (st st1 : State) (user : User.t)
    (n : Notification.t) :
  users st !! user_id = Some user ->
  _get_or_create_notification user title message notification_id st
  = (Ok (Some n), st1) ->
  exists r os calls,
    send_notification settings T user_id title message channels
      notification_id st
    = (Ok r, saved (logged st1 (Notification.id n) os (network st1 ++ calls))
               n (existsb succeeded os))
    /\ Result.notification_id r = Some (Notification.id n)
    /\ sublist (map channel_of calls) (map fst os)
    /\ (forall profile, profiles st !! User.id user = Some profile ->
          Forall (addressed_to profile title message) calls
          /\ map fst os `prefix_of`
               or_list channels (_get_available_channels profile))
    /\ (profiles st !! User.id user = None -> os = [] /\ calls = []
        /\ r = error_result "Профиль пользователя не найден"
                 (Notification.id n))
    /\ ((all_failed os = true /\ Result.status r = "error"
         /\ Result.channel r = None)
        \/ (exists pre a,
               os = pre ++ [a] /\ all_failed pre = true
               /\ succeeded a = true
               /\ r = success_result (fst a) (Notification.id n))).
Proof.
  intros Hu Hn.
  rewrite (send_notification_resolved settings T _ _ _ channels _ _ _ _ _ Hu Hn).
  destruct (profiles st !! User.id user) as [profile|] eqn:Hp.
  - destruct (or_list channels (_get_available_channels profile))
      as [|c l] eqn:El.
    + eexists _, [], []. rewrite app_nil_r, logged_nil.
      split; [reflexivity|]. split; [reflexivity|]. split; [constructor|].
      split; [intros p [= <-]; split; [constructor | apply prefix_nil]|].
      split; [discriminate|]. left. auto.
    + destruct (loop_rows settings T n profile title message (c :: l) st1)
        as (os & r & Hrun & Hpre & Hr).
      destruct (net_after_calls settings T profile title message (map fst os)
                  (network st1)) as (calls & Hw & Hs & Hf).
      exists r, os, calls. rewrite <- Hw.
      split; [exact Hrun|].
      split; [destruct Hr as [(_ & _ & _ & ->) | (? & ? & _ & _ & _ & _ & ->)];
              reflexivity|].
      split; [exact Hs|].
      split.
      { intros p [= <-]. split; [exact Hf|].
        rewrite El.
        rewrite <- (outcomes_channels settings T profile title message
                      (c :: l) (network st1)).
        destruct Hpre as [tl ->]. rewrite map_app. now exists (map fst tl). }
      split; [discriminate|].
      destruct Hr as [(Hf' & _ & _ & ->) | (pre & a & -> & Hp' & Ha & _ & ->)];
        [left; auto | right; eauto 10].
  - eexists _, [], []. rewrite app_nil_r, logged_nil.
    split; [reflexivity|]. split; [reflexivity|]. split; [constructor|].
    split; [discriminate|]. split; [auto|]. left. auto.
Qed.

Lemma all_failed_none (os : list Attempt) :
  all_failed os = true -> existsb succeeded os = false.
Proof.
  unfold all_failed. induction os as [|a os IH]; simpl; auto.
  intros H. apply andb_true_iff in H as [Ha Hos].
  apply negb_true_iff in Ha. rewrite Ha. auto.
Qed.

(** A recipient that does not exist stops the task before anything is
    touched: the result is an error without notification id, whose text
    carries the id asked for, and the state is the one the task started
    from (no notification, no log row, no call). *)
Theorem missing_recipient_changes_nothing (settings : Settings)
    (T : Transport) (user_id : Z) (title message : string)
    (channels : option (list string)) (notification_id : option Z)
    (st : State) :
  users st !! user_id = None ->
  exists r,
    send_notification settings T user_id title message channels
      notification_id st
    = (Ok r, st)
    /\ Result.status r = "error"
    /\ Result.notification_id r = None
    /\ Result.message r
       = Some ("Пользователь с ID " +:+ pretty user_id +:+ " не найден").
Proof.
  intros Hu. eexists.
  rewrite send_notification_no_user by exact Hu. auto.
Qed.

Lemma missing_recipient_witness :
  exists r,
    send_notification Sample.full_settings Sample.all_up 7 "t" "m" None None
      Sample.st0
    = (Ok r, Sample.st0)
    /\ Result.message r = Some "Пользователь с ID 7 не найден".
Proof.
  destruct (missing_recipient_changes_nothing Sample.full_settings
              Sample.all_up 7 "t" "m" None None Sample.st0 eq_refl)
    as (r & Hrun & _ & _ & Hm).
  exists r. split; [exact Hrun | exact Hm].
Defined.

(** Whatever the arguments and however the run ends, returning or
    raising, the task leaves the users and the profiles as they were,
    only adds rows at the end of the log, only adds calls at the end of
    the network history, moves the key sequence by at most one, and
    touches at most one key of the notification table. *)
Theorem run_frame (settings : Settings) (T : Transport) (user_id : Z)
    (title message : string) (channels : option (list string))
    (notification_id : option Z) (st st' : State) (out : Outcome Result.t) :
  send_notification settings T user_id title message channels notification_id st
  = (out, st') ->
  users st' = users st
  /\ profiles st' = profiles st
  /\ logs st `prefix_of` logs st'
  /\ network st `prefix_of` network st'
  /\ (next_notification_id st <= next_notification_id st'
      <= next_notification_id st + 1)%Z
  /\ exists key, forall k,
       k <> key -> notifications st' !! k = notifications st !! k.
Proof.
  intros Hrun.
  destruct (users st !! user_id) as [user|] eqn:Hu.
  2: { rewrite send_notification_no_user in Hrun by exact Hu.
       injection Hrun as <- <-.
       repeat split; try reflexivity; try lia. exists 0%Z. auto. }
  destruct (get_or_create_cases user title message notification_id st)
    as [(n & st1 & Hn) | (i & -> & Hi & Hmiss)].
  - destruct (resolved_run settings T user_id title message channels
                notification_id st st1 user n Hu Hn)
      as (r & os & calls & Hrun' & _).
    rewrite Hrun' in Hrun. injection Hrun as <- <-. simpl.
    apply get_or_create_resolved in Hn
      as [(-> & _) | (_ & Hnew & ->)]; simpl.
    + repeat split; try reflexivity; try lia;
        try (eexists; reflexivity).
      exists (Notification.id n). intros k Hk. now apply lookup_insert_ne.
    + repeat split; try reflexivity; try lia;
        try (eexists; reflexivity).
      exists (Notification.id n). intros k Hk.
      rewrite lookup_insert_ne by auto.
      apply lookup_insert_ne. rewrite Hnew in Hk. simpl in Hk. auto.
  - rewrite (send_notification_unresolved settings T _ _ _ _ _ _ _ Hu Hi Hmiss)
      in Hrun.
    destruct (profiles st !! User.id user) as [profile|].
    + destruct (or_list channels (_get_available_channels profile))
        as [|c l].
      * injection Hrun as <- <-.
        repeat split; try reflexivity; try lia. exists 0%Z. auto.
      * injection Hrun as <- <-. simpl.
        repeat split; try reflexivity; try lia; [|exists 0%Z; auto].
        destruct (attempt_effect settings T profile title message c
                    (network st)) as [(_ & ->) | (call & -> & _)];
          [reflexivity | eexists; reflexivity].
    + injection Hrun as <- <-.
      repeat split; try reflexivity; try lia. exists 0%Z. auto.
Qed.

Lemma run_frame_witness :
  profiles (snd (send_notification Sample.full_settings Sample.mail_down 1
                   "t" "m" None None Sample.st0))
  = profiles Sample.st0
  /\ logs Sample.st0
     `prefix_of` logs (snd (send_notification Sample.full_settings
                              Sample.mail_down 1 "t" "m" None None Sample.st0)).
Proof.
  destruct (run_frame Sample.full_settings Sample.mail_down 1 "t" "m" None
              None Sample.st0 _ _ eq_refl) as (_ & Hp & Hl & _).
  split; [exact Hp | exact Hl].
Defined.

(** A run for an existing notification (a resend) returns a result for
    that notification, creates none, leaves the key sequence alone, and
    changes nothing of the stored row but [is_delivered]: the title and
    the message passed to the task are sent, not stored. *)
Theorem resend_keeps_the_row (settings : Settings) (T : Transport)
    (user_id : Z) (title message : string) (channels : option (list string))
    (i : Z) (st : State) (user : User.t) (n : Notification.t) :
  users st !! user_id = Some user ->
  i <> 0%Z ->
  notifications st !! i = Some n ->
  Notification.id n = i ->
  exists r st' v,
    send_notification settings T user_id title message channels (Some i) st
    = (Ok r, st')
    /\ Result.notification_id r = Some i
    /\ (Result.status r = "success" <-> v = true)
    /\ notifications st'
       = <[i := Notification.with_is_delivered n v]> (notifications st)
    /\ dom (notifications st') = dom (notifications st)
    /\ next_notification_id st' = next_notification_id st.
Proof.
  intros Hu Hi Hrow Hid. subst i.
  assert (Hn : _get_or_create_notification user title message
                 (Some (Notification.id n)) st
               = (Ok (Some n), st)).
  { unfold _get_or_create_notification, try_get, objects_get. simpl.
    destruct (Z.eqb_spec (Notification.id n) 0); [contradiction|]. simpl.
    now rewrite Hrow. }
  destruct (resolved_run settings T user_id title message channels
              (Some (Notification.id n)) st st user n Hu Hn)
    as (r & os & calls & Hrun & Hr & _ & _ & _ & Hshape).
  exists r, (saved (logged st (Notification.id n) os (network st ++ calls)) n
               (existsb succeeded os)), (existsb succeeded os).
  simpl.
  split; [exact Hrun|]. split; [exact Hr|]. split; [|split; [reflexivity|]].
  - destruct Hshape as [(Hf & Hs & _) | (pre & a & -> & _ & Ha & ->)].
    + rewrite (all_failed_none _ Hf), Hs. split; discriminate.
    + rewrite existsb_app. simpl. rewrite Ha, orb_true_r. split; reflexivity.
  - split; [|reflexivity].
    apply dom_insert_lookup_L. eauto.
Qed.

Lemma resend_keeps_the_row_witness :
  exists r st' v,
    send_notification Sample.full_settings Sample.all_up 1 "other title"
      "other message" None (Some 1%Z) Sample.st1
    = (Ok r, st')
    /\ notifications st'
       = <[1%Z := Notification.with_is_delivered Sample.first v]>
           (notifications Sample.st1).
Proof.
  destruct (resend_keeps_the_row Sample.full_settings Sample.all_up 1
              "other title" "other message" None 1 Sample.st1 Sample.alice
              Sample.first eq_refl ltac:(discriminate) eq_refl eq_refl)
    as (r & st' & v & Hrun & _ & _ & Hn & _).
  exists r, st', v. split; [exact Hrun | exact Hn].
Defined.

(** A run without a notification id ([None], or [0], which the task
    takes for none) and for an existing recipient always creates exactly
    one notification, under the next key of the sequence, with the
    recipient, the title and the message of the call; this also happens
    when the profile is missing or no channel is available.  The result
    carries the new key, and the row is saved as delivered exactly when
    the result is a success. *)
Theorem run_without_id_creates_one (settings : Settings) (T : Transport)
    (user_id : Z) (title message : string) (channels : option (list string))
    (notification_id : option Z) (st : State) (user : User.t) :
  users st !! user_id = Some user ->
  truthy_int notification_id = false ->
  exists r st' v,
    send_notification settings T user_id title message channels
      notification_id st
    = (Ok r, st')
    /\ Result.notification_id r = Some (next_notification_id st)
    /\ (Result.status r = "success" <-> v = true)
    /\ notifications st'
       = <[next_notification_id st :=
             {| Notification.id := next_notification_id st;
                Notification.user := User.id user;
                Notification.title := title;
                Notification.message := message;
                Notification.is_delivered := v |}]> (notifications st)
    /\ next_notification_id st' = (next_notification_id st + 1)%Z.
Proof.
  intros Hu Hid.
  destruct (get_or_create_cases user title message notification_id st)
    as [(n & st1 & Hn) | (i & -> & Hi & _)].
  2: { simpl in Hid. destruct (Z.eqb_spec i 0); [contradiction|discriminate]. }
  destruct (resolved_run settings T user_id title message channels
              notification_id st st1 user n Hu Hn)
    as (r & os & calls & Hrun & Hr & _ & _ & _ & Hshape).
  apply get_or_create_resolved in Hn
    as [(_ & i & -> & Hi & _) | (_ & -> & ->)].
  { simpl in Hid. destruct (Z.eqb_spec i 0); [contradiction|discriminate]. }
  eexists r, _, (existsb succeeded os).
  split; [exact Hrun|]. simpl in *.
  split; [exact Hr|]. split; [|split; [|reflexivity]].
  - destruct Hshape as [(Hf & Hs & _) | (pre & a & -> & _ & Ha & ->)].
    + rewrite (all_failed_none _ Hf), Hs. split; discriminate.
    + rewrite existsb_app. simpl. rewrite Ha, orb_true_r. split; reflexivity.
  - apply insert_insert_eq.
Qed.

Lemma run_without_id_witness :
  exists r st' v,
    send_notification Sample.full_settings Sample.all_up 1 "t" "m" None
      (Some 0%Z) Sample.st0
    = (Ok r, st')
    /\ Result.notification_id r = Some 1%Z
    /\ next_notification_id st' = 2%Z
    /\ (Result.status r = "success" <-> v = true).
Proof.
  destruct (run_without_id_creates_one Sample.full_settings Sample.all_up 1
              "t" "m" None (Some 0%Z) Sample.st0 Sample.alice eq_refl eq_refl)
    as (r & st' & v & Hrun & Hr & Hv & _ & Hnext).
  exists r, st', v. auto.
Defined.

Lemma all_failed_rows (nid : Z) (os : list Attempt) :
  all_failed os = true ->
  Forall (fun row => NotificationLog.status row = false) (map (to_log nid) os).
Proof.
  unfold all_failed. induction os as [|a os IH]; simpl; intros H;
    constructor.
  - apply andb_true_iff in H as [Ha _]. now apply negb_true_iff in Ha.
  - apply andb_true_iff in H as [_ Hos]. auto.
Qed.

(** In every run of the task that returns a result about a notification,
    the rows added to the log are failures only, and the result is an
    error naming no channel, or they are failures followed by exactly one
    success, which is the last row, and the result is the success naming
    the channel of that row.  A run never logs anything after a
    success. *)
Theorem run_rows (settings : Settings) (T : Transport) (user_id : Z)
    (title message : string) (channels : option (list string))
    (notification_id : option Z) (st st' : State) (r : Result.t) (nid : Z) :
  send_notification settings T user_id title message channels notification_id st
  = (Ok r, st') ->
  Result.notification_id r = Some nid ->
  exists new,
    logs st' = logs st ++ new
    /\ ((Forall (fun row => NotificationLog.status row = false) new
         /\ Result.status r = "error" /\ Result.channel r = None)
        \/ (exists pre row,
               new = pre ++ [row]
               /\ Forall (fun row => NotificationLog.status row = false) pre
               /\ NotificationLog.status row = true
               /\ Result.status r = "success"
               /\ Result.channel r = Some (NotificationLog.channel row))).
Proof.
  intros Hrun Hid.
  destruct (users st !! user_id) as [user|] eqn:Hu.
  2: { rewrite send_notification_no_user in Hrun by exact Hu.
       injection Hrun as <- _. discriminate. }
  destruct (get_or_create_cases user title message notification_id st)
    as [(n & st1 & Hn) | (i & -> & Hi & Hmiss)].
  2: { rewrite (send_notification_unresolved settings T _ _ _ _ _ _ _ Hu Hi Hmiss)
         in Hrun.
       repeat case_match; discriminate. }
  destruct (get_or_create_frame _ _ _ _ _ _ _ Hn) as (_ & _ & Hl & _).
  destruct (resolved_run settings T user_id title message channels
              notification_id st st1 user n Hu Hn)
    as (r' & os & calls & Hrun' & _ & _ & _ & _ & Hshape).
  rewrite Hrun' in Hrun. injection Hrun as <- <-.
  exists (map (to_log (Notification.id n)) os). simpl. rewrite Hl.
  split; [reflexivity|].
  destruct Hshape as [(Hf & Hs & Hc) | (pre & a & -> & Hf & Ha & ->)].
  - left. auto using all_failed_rows.
  - right. exists (map (to_log (Notification.id n)) pre),
      (to_log (Notification.id n) a).
    rewrite map_app. simpl. auto 10 using all_failed_rows.
Qed.

Lemma run_rows_witness :
  exists new pre row,
    logs (snd (send_notification Sample.full_settings Sample.mail_down 1 "t"
                 "m" None None Sample.st0))
    = logs Sample.st0 ++ new
    /\ new = pre ++ [row]
    /\ NotificationLog.status row = true
    /\ Some "sms" = Some (NotificationLog.channel row).
Proof.
  destruct (run_rows Sample.full_settings Sample.mail_down 1 "t" "m" None None
              Sample.st0 _ (success_result "sms" 1) 1 eq_refl eq_refl)
    as (new & Hl & [(_ & Hs & _) | (pre & row & Hn & _ & Hr & _ & Hc)]).
  - discriminate Hs.
  - exists new, pre, row. auto.
Defined.



(** With the recipient and the notification at hand but no profile, the
    task tries nothing: it returns the error
    "Профиль пользователя не найден", adds no log row, makes no call,
    and saves the notification with [is_delivered] false, also when the
    notification had been delivered before and whatever channel list was
    given. *)
Theorem missing_profile_resets_the_flag (settings : Settings) (T : Transport)
    (user_id : Z) (title message : string) (channels : option (list string))
    (notification_id : option Z) (st st1 : State) (user : User.t)
    (n : Notification.t) :
  users st !! user_id = Some user ->
  _get_or_create_notification user title message notification_id st
  = (Ok (Some n), st1) ->
  profiles st !! User.id user = None ->
  exists st',
    send_notification settings T user_id title message channels
      notification_id st
    = (Ok (error_result "Профиль пользователя не найден" (Notification.id n)),
       st')
    /\ logs st' = logs st
    /\ network st' = network st
    /\ tried st' = tried st
    /\ notifications st' !! Notification.id n
       = Some (Notification.with_is_delivered n false).
Proof.
  intros Hu Hn Hp.
  destruct (get_or_create_frame _ _ _ _ _ _ _ Hn) as (_ & _ & Hl & Hw & Ht).
  rewrite (send_notification_resolved settings T _ _ _ channels _ _ _ _ _ Hu Hn).
  rewrite Hp. eexists. split; [reflexivity|]. simpl.
  repeat split; auto. apply lookup_insert_eq.
Qed.

(** The keys of the notification table stay sound through every run of
    the task, however it ends: each row carries its own key and the
    sequence stays ahead of every key in use.  So a notification that the
    task creates never takes the place of an existing one. *)
Theorem run_keeps_keys (settings : Settings) (T : Transport) (user_id : Z)
    (title message : string) (channels : option (list string))
    (notification_id : option Z) (st st' : State) (out : Outcome Result.t) :
  keyed st ->
  send_notification settings T user_id title message channels notification_id st
  = (out, st') ->
  keyed st'
  /\ forall k row, notifications st !! k = Some row ->
       exists v, notifications st' !! k
                 = Some (Notification.with_is_delivered row v).
Proof.
  intros Hk Hrun.
  assert (Hsame : forall row : Notification.t,
             exists v, Some row = Some (Notification.with_is_delivered row v)).
  { intros row. exists (Notification.is_delivered row). now destruct row. }
  destruct (users st !! user_id) as [user|] eqn:Hu.
  2: { rewrite send_notification_no_user in Hrun by exact Hu.
       injection Hrun as <- <-. split; [exact Hk|].
       intros k row ->. apply Hsame. }
  destruct (get_or_create_cases user title message notification_id st)
    as [(n & st1 & Hn) | (i & -> & Hi & Hmiss)].
  - destruct (resolved_run settings T user_id title message channels
                notification_id st st1 user n Hu Hn)
      as (r & os & calls & Hrun' & _).
    rewrite Hrun' in Hrun. injection Hrun as <- <-.
    apply get_or_create_resolved in Hn
      as [(-> & i & _ & _ & Hrow) | (_ & -> & ->)].
    + destruct (Hk _ _ Hrow) as [Hid Hlt]. split.
      * intros k row. unfold saved, logged. simpl.
        destruct (decide (k = Notification.id n)) as [->|Hne].
        -- rewrite lookup_insert_eq. intros [= <-]. simpl. split; [reflexivity|].
           rewrite Hid. exact Hlt.
        -- rewrite lookup_insert_ne by auto. apply Hk.
      * intros k row Hr. simpl.
        destruct (decide (k = Notification.id n)) as [->|Hne].
        -- rewrite lookup_insert_eq. rewrite Hid, Hrow in Hr.
           injection Hr as <-. eauto.
        -- rewrite lookup_insert_ne by auto. rewrite Hr. apply Hsame.
    + split.
      * intros k row. simpl. rewrite insert_insert_eq.
        destruct (decide (k = next_notification_id st)) as [->|Hne].
        -- rewrite lookup_insert_eq. intros [= <-]. simpl. split; [reflexivity|lia].
        -- rewrite lookup_insert_ne by auto. intros Hr.
           destruct (Hk _ _ Hr). split; [auto | lia].
      * intros k row Hr. simpl. rewrite insert_insert_eq.
        destruct (Hk _ _ Hr) as [_ Hlt].
        rewrite lookup_insert_ne by lia. rewrite Hr. apply Hsame.
  - rewrite (send_notification_unresolved settings T _ _ _ _ _ _ _ Hu Hi Hmiss)
      in Hrun.
    repeat case_match; injection Hrun as <- <-; (split; [exact Hk|]);
      intros k row Hr; simpl; rewrite Hr; apply Hsame.
Qed.

(** ** The administration *)

(** The channel selection of the admin and the one of the task are
    written twice in the source; they always agree.  For a user with a
    profile the admin selects what the task selects from that profile;
    for a user without profile it selects nothing, where the task stops
    with an error.  The selection reads the database and changes
    nothing. *)
Theorem admin_selection_agrees (user : Z) (st : State) :
  Admin._get_available_channels user st
  = (Ok match profiles st !! user with
        | Some profile => Tasks._get_available_channels profile
        | None => []
        end, st)
  /\ (forall c, c ∈ (match profiles st !! user with
                     | Some profile => Tasks._get_available_channels profile
                     | None => []
                     end) ->
        known_channel c = true).
Proof.
  unfold Admin._get_available_channels, try_get, objects_get.
  destruct (profiles st !! user) as [profile|]; simpl.
  - split; [reflexivity|].
    unfold Tasks._get_available_channels.
    destruct (truthy (UserProfile.email profile)),
      (truthy (UserProfile.phone_number profile)),
      (truthy (UserProfile.telegram_chat_id profile)); simpl;
      intros c Hc; rewrite ?elem_of_cons, ?elem_of_nil in Hc;
      intuition (subst; reflexivity).
  - split; [reflexivity|]. intros c Hc. now apply elem_of_nil in Hc.
Qed.

(** Queuing a job never raises in the admin and never touches the
    database.  When the broker takes the job, the answer is [True], the
    job is the last of the queue, with the recipient, the title, the
    message and the key of the notification and with the channels given,
    and one notice of level INFO is shown.  When the publication raises,
    the answer is [False], the queue is as before and one notice of level
    ERROR shows the text of the exception. *)
Theorem send_notification_task_effect (broker : Admin.Broker)
    (notification : Notification.t) (channels : list string)
    (s : Admin.Site) :
  exists queued s',
    Admin._send_notification_task broker notification channels s
    = (Ok queued, s')
    /\ Admin.db s' = Admin.db s
    /\ match broker (Admin.queue s) (job_for notification channels) with
       | None =>
           queued = true
           /\ Admin.queue s'
              = Admin.queue s ++ [job_for notification channels]
           /\ Admin.messages s'
              = Admin.messages s
                ++ [(Admin.INFO,
                     "Уведомление поставлено в очередь на отправку")]
       | Some e =>
           queued = false
           /\ Admin.queue s' = Admin.queue s
           /\ Admin.messages s'
              = Admin.messages s
                ++ [(Admin.ERROR, "Возникла ошибка при отправке: " +:+ str e)]
       end.
Proof.
  unfold Admin._send_notification_task, try_except, Admin.delay, job_for.
  unfold mbind, M_bind, bind, mret, M_ret, ret, Admin.message_user.
  destruct (broker (Admin.queue s) _) as [e|];
    eexists _, _; (split; [reflexivity|]); simpl; auto.
Qed.

(** A recipient whose profile selects no channel is never reached. *)
Lemma no_address_attempt (settings : Settings) (T : Transport)
    (profile : UserProfile.t) (title message c : string) (w : Net) :
  Tasks._get_available_channels profile = [] ->
  exists e,
    attempt settings T profile title message c w = ((false, Some e), w).
Proof.
  unfold Tasks._get_available_channels, attempt, _send_by_channel.
  destruct (truthy (UserProfile.email profile)),
    (truthy (UserProfile.phone_number profile)),
    (truthy (UserProfile.telegram_chat_id profile)); simpl;
    try discriminate.
  intros _. unfold mret, M_ret, ret.
  destruct (String.eqb c NotificationChannel.EMAIL); [eauto|].
  destruct (String.eqb c NotificationChannel.SMS); [eauto|].
  destruct (String.eqb c NotificationChannel.TELEGRAM); eauto.
Qed.

Lemma no_address_outcomes (settings : Settings) (T : Transport)
    (profile : UserProfile.t) (title message : string) (l : list string) :
  Tasks._get_available_channels profile = [] ->
  forall w,
    all_failed (outcomes settings T profile title message l w) = true
    /\ net_after settings T profile title message l w = w.
Proof.
  intros H. induction l as [|c l IH]; intros w; simpl; [auto|].
  destruct (no_address_attempt settings T profile title message c w H)
    as (e & ->). simpl. apply IH.
Qed.

(** A recipient whose profile has no populated field is never sent
    anything, whatever channel list is passed to the task, known names or
    not: no run makes a call, and no run ends in a success.  With a
    channel list, each channel is tried and logged as a failure, and the
    notification is saved as not delivered. *)
Theorem empty_profile_never_delivers (settings : Settings) (T : Transport)
    (user_id : Z) (title message : string) (channels : option (list string))
    (notification_id : option Z) (st st' : State) (user : User.t)
    (profile : UserProfile.t) (out : Outcome Result.t) :
  users st !! user_id = Some user ->
  profiles st !! User.id user = Some profile ->
  Tasks._get_available_channels profile = [] ->
  send_notification settings T user_id title message channels notification_id st
  = (out, st') ->
  network st' = network st
  /\ (forall r, out = Ok r ->
        Result.status r = "error"
        /\ exists n new,
             Result.notification_id r = Some (Notification.id n)
             /\ notifications st' !! Notification.id n
                = Some (Notification.with_is_delivered n false)
             /\ logs st' = logs st ++ new
             /\ map NotificationLog.channel new = or_list channels []
             /\ Forall (fun row => NotificationLog.status row = false) new).
Proof.
  intros Hu Hp Hnone Hrun.
  destruct (get_or_create_cases user title message notification_id st)
    as [(n & st1 & Hn) | (i & -> & Hi & Hmiss)].
  - destruct (get_or_create_frame _ _ _ _ _ _ _ Hn) as (_ & _ & Hl & Hw & _).
    rewrite (send_notification_resolved settings T _ _ _ channels _ _ _ _ _
               Hu Hn), Hp, Hnone in Hrun.
    destruct (or_list channels []) as [|c l] eqn:El.
    + injection Hrun as <- <-. simpl. split; [exact Hw|].
      intros r [= <-]. split; [reflexivity|].
      exists n, []. rewrite app_nil_r.
      simpl. repeat split; auto; try apply lookup_insert_eq; constructor.
    + destruct (no_address_outcomes settings T profile title message (c :: l)
                  Hnone (network st1)) as [Hf Hnet].
      rewrite (loop_all_failed settings T n profile title message (c :: l) st1
                 Hf) in Hrun.
      rewrite Hnet in Hrun. injection Hrun as <- <-.
      split; [exact Hw|].
      intros r [= <-]. split; [reflexivity|].
      exists n, (map (to_log (Notification.id n))
                   (outcomes settings T profile title message (c :: l)
                      (network st1))).
      split; [reflexivity|]. split; [apply lookup_insert_eq|].
      split; [simpl; now rewrite Hl|].
      split; [rewrite to_log_channels; apply outcomes_channels|].
      now apply all_failed_rows.
  - rewrite (send_notification_unresolved settings T _ _ _ _ _ _ _ Hu Hi Hmiss),
      Hp, Hnone in Hrun.
    destruct (or_list channels []) as [|c l].
    + injection Hrun as <- <-. split; [reflexivity | discriminate].
    + injection Hrun as <- <-. simpl.
      destruct (no_address_attempt settings T profile title message c
                  (network st) Hnone) as (e & ->).
      split; [reflexivity | discriminate].
Qed.

Lemma empty_profile_witness :
  network (snd (send_notification Sample.full_settings Sample.all_up 1 "t" "m"
                  (Some ["email"; "sms"; "telegram"]) (Some 1%Z) Desk.st_bare))
  = network Desk.st_bare.
Proof.
  exact (proj1 (empty_profile_never_delivers Sample.full_settings
                  Sample.all_up 1 "t" "m" (Some ["email"; "sms"; "telegram"])
                  (Some 1%Z) Desk.st_bare _ Sample.alice Desk.bare_profile _
                  eq_refl eq_refl eq_refl eq_refl)).
Defined.

(** The selection of the admin, as an equation. *)
Lemma admin_selection_eq (user : Z) (st : State) :
  Admin._get_available_channels user st
  = (Ok match profiles st !! user with
        | Some profile => Tasks._get_available_channels profile
        | None => []
        end, st).
Proof.
  unfold Admin._get_available_channels, try_get, objects_get.
  destruct (profiles st !! user); reflexivity.
Qed.

(** The two ends of [_send_notification_task], as equations. *)
Lemma task_queued (broker : Admin.Broker) (n : Notification.t)
    (channels : list string) (s : Admin.Site) :
  broker (Admin.queue s) (job_for n channels) = None ->
  Admin._send_notification_task broker n channels s
  = (Ok true,
     {| Admin.db := Admin.db s;
        Admin.queue := Admin.queue s ++ [job_for n channels];
        Admin.messages :=
          Admin.messages s
          ++ [(Admin.INFO, "Уведомление поставлено в очередь на отправку")] |}).
Proof.
  intros H. unfold Admin._send_notification_task, try_except, Admin.delay.
  unfold mbind, M_bind, bind. fold (job_for n channels). now rewrite H.
Qed.

Lemma task_refused (broker : Admin.Broker) (n : Notification.t)
    (channels : list string) (s : Admin.Site) (e : Exn) :
  broker (Admin.queue s) (job_for n channels) = Some e ->
  Admin._send_notification_task broker n channels s
  = (Ok false,
     {| Admin.db := Admin.db s;
        Admin.queue := Admin.queue s;
        Admin.messages :=
          Admin.messages s
          ++ [(Admin.ERROR, "Возникла ошибка при отправке: " +:+ str e)] |}).
Proof.
  intros H. unfold Admin._send_notification_task, try_except, Admin.delay.
  unfold mbind, M_bind, bind. fold (job_for n channels). now rewrite H.
Qed.

(** [save_model] on a new object, step by step. *)
Lemma save_model_new_eq (broker : Admin.Broker) (obj : Obj.t)
    (s : Admin.Site) :
  Obj.pk obj = None ->
  let st := Admin.db s in
  let n := {| Notification.id := next_notification_id st;
              Notification.user := Obj.user obj;
              Notification.title := Obj.title obj;
              Notification.message := Obj.message obj;
              Notification.is_delivered := Obj.is_delivered obj |} in
  let st1 := set_notifications st (<[next_notification_id st := n]>
                                     (notifications st))
               (next_notification_id st + 1) in
  let s1 := {| Admin.db := st1; Admin.queue := Admin.queue s;
               Admin.messages := Admin.messages s |} in
  Admin.save_model broker obj false s
  = match profiles st !! Obj.user obj with
    | None =>
        Admin.message_user
          "Уведомление создано, но не может быть отправлено: нет доступных каналов"
          Admin.WARNING s1
    | Some profile =>
        match Tasks._get_available_channels profile with
        | [] =>
            Admin.message_user
              "Уведомление создано, но не может быть отправлено: нет доступных каналов"
              Admin.WARNING s1
        | c :: l =>
            (Ok tt, snd (Admin._send_notification_task broker n (c :: l) s1))
        end
    end.
Proof.
  intros Hpk st n st1 s1.
  unfold Admin.save_model, Admin.on_db at 1, Admin.model_save.
  unfold mbind, M_bind, bind at 1. rewrite Hpk. simpl.
  fold st n st1 s1.
  unfold bind at 1, Admin.on_db. change (Admin.db s1) with st1.
  rewrite admin_selection_eq. simpl.
  change (profiles st1) with (profiles st).
  destruct (profiles st !! Obj.user obj) as [profile|]; [|reflexivity].
  destruct (Tasks._get_available_channels profile) as [|c l]; [reflexivity|].
  unfold bind.
  change {| Admin.db := st1; Admin.queue := Admin.queue s;
            Admin.messages := Admin.messages s |} with s1.
  destruct (Admin._send_notification_task broker n (c :: l) s1)
    as [[q|e] s'] eqn:E; [reflexivity|].
  exfalso. revert E.
  unfold Admin._send_notification_task, try_except, Admin.delay.
  unfold mbind, M_bind, bind.
  destruct (broker (Admin.queue s1) _); discriminate.
Qed.

(** Saving a notification from the admin.  A change of an existing
    object queues nothing and shows nothing.  A new object is stored
    under the next key, whether or not it can be sent; then, if the
    recipient's profile selects no channel (or is missing), nothing is
    queued and a WARNING is shown; otherwise exactly one job is handed to
    the broker, for the new key and with the selected channels, and it is
    queued with an INFO notice when the broker takes it, or reported with
    an ERROR notice when the publication raises.  The log and the network
    are not touched. *)
Theorem save_model_effect (broker : Admin.Broker) (obj : Obj.t)
    (s : Admin.Site) :
  (exists s',
      Admin.save_model broker obj true s = (Ok tt, s')
      /\ Admin.queue s' = Admin.queue s
      /\ Admin.messages s' = Admin.messages s)
  /\ (Obj.pk obj = None ->
      let st := Admin.db s in
      let n := {| Notification.id := next_notification_id st;
                  Notification.user := Obj.user obj;
                  Notification.title := Obj.title obj;
                  Notification.message := Obj.message obj;
                  Notification.is_delivered := Obj.is_delivered obj |} in
      exists s',
        Admin.save_model broker obj false s = (Ok tt, s')
        /\ notifications (Admin.db s')
           = <[next_notification_id st := n]> (notifications st)
        /\ next_notification_id (Admin.db s')
           = (next_notification_id st + 1)%Z
        /\ logs (Admin.db s') = logs st
        /\ network (Admin.db s') = network st
        /\ match selection st (Obj.user obj) with
           | [] =>
               Admin.queue s' = Admin.queue s
               /\ Admin.messages s'
                  = Admin.messages s
                    ++ [(Admin.WARNING,
                         "Уведомление создано, но не может быть отправлено: нет доступных каналов")]
           | c :: l =>
               match broker (Admin.queue s) (job_for n (c :: l)) with
               | None =>
                   Admin.queue s' = Admin.queue s ++ [job_for n (c :: l)]
                   /\ Admin.messages s'
                      = Admin.messages s
                        ++ [(Admin.INFO,
                             "Уведомление поставлено в очередь на отправку")]
               | Some e =>
                   Admin.queue s' = Admin.queue s
                   /\ Admin.messages s'
                      = Admin.messages s
                        ++ [(Admin.ERROR,
                             "Возникла ошибка при отправке: " +:+ str e)]
               end
           end).
Proof.
  split.
  - unfold Admin.save_model, Admin.on_db, Admin.model_save.
    unfold mbind, M_bind, bind.
    destruct (Obj.pk obj); simpl; eexists; (split; [reflexivity|]); auto.
  - intros Hpk st n.
    rewrite (save_model_new_eq broker obj s Hpk). fold st n.
    unfold selection.
    destruct (profiles st !! Obj.user obj) as [profile|];
      [destruct (Tasks._get_available_channels profile) as [|c l]|].
    + eexists. split; [reflexivity|]. simpl. repeat split; reflexivity.
    + destruct (broker (Admin.queue s) (job_for n (c :: l))) as [e|] eqn:Hb.
      * rewrite (task_refused broker n (c :: l) _ e) by exact Hb.
        eexists. split; [reflexivity|]. simpl. repeat split; reflexivity.
      * rewrite (task_queued broker n (c :: l)) by exact Hb.
        eexists. split; [reflexivity|]. simpl. repeat split; reflexivity.
    + eexists. split; [reflexivity|]. simpl. repeat split; reflexivity.
Qed.

Lemma save_model_effect_witness :
  exists s',
    Admin.save_model Desk.broker_up Desk.new_obj false Desk.site0 = (Ok tt, s')
    /\ Admin.queue s'
       = [ {| Job.user_id := 1; Job.title := "t"; Job.message := "m";
              Job.channels := ["email"; "sms"; "telegram"];
              Job.notification_id := 1 |} ].
Proof.
  destruct (save_model_effect Desk.broker_up Desk.new_obj Desk.site0)
    as [_ H].
  destruct (H eq_refl) as (s' & Hrun & _ & _ & _ & _ & Hq).
  exists s'. split; [exact Hrun|]. exact (proj1 Hq).
Defined.

(** The job that [save_model] queues for a new notification, once a
    worker runs it, works on that very notification and creates no
    second one: the table holds the one row stored by the admin, with its
    flag set by the run.  The explicit channel list of the job makes the
    run the same as a run without channel list.  This relies on the new
    key not being [0], which the task would take for "no id". *)
Theorem queued_job_runs_on_its_notification (settings : Settings)
    (T : Transport) (broker : Admin.Broker) (obj : Obj.t) (s s' : Admin.Site)
    (user : User.t) (job : Job.t) :
  Obj.pk obj = None ->
  next_notification_id (Admin.db s) <> 0%Z ->
  users (Admin.db s) !! Obj.user obj = Some user ->
  User.id user = Obj.user obj ->
  Admin.save_model broker obj false s = (Ok tt, s') ->
  Admin.queue s' = Admin.queue s ++ [job] ->
  exists r st'' v,
    run_job settings T job (Admin.db s') = (Ok r, st'')
    /\ run_job settings T job (Admin.db s')
       = send_notification settings T (Obj.user obj) (Obj.title obj)
           (Obj.message obj) None
           (Some (next_notification_id (Admin.db s))) (Admin.db s')
    /\ Result.notification_id r = Some (next_notification_id (Admin.db s))
    /\ (Result.status r = "success" <-> v = true)
    /\ notifications st''
       = <[next_notification_id (Admin.db s) :=
             {| Notification.id := next_notification_id (Admin.db s);
                Notification.user := Obj.user obj;
                Notification.title := Obj.title obj;
                Notification.message := Obj.message obj;
                Notification.is_delivered := v |}]>
           (notifications (Admin.db s))
    /\ next_notification_id st''
       = (next_notification_id (Admin.db s) + 1)%Z.
Proof.
  intros Hpk Hnz Hu Hid Hsave Hq.
  rewrite (save_model_new_eq broker obj s Hpk) in Hsave.
  set (st := Admin.db s) in *.
  set (n := {| Notification.id := next_notification_id st;
               Notification.user := Obj.user obj;
               Notification.title := Obj.title obj;
               Notification.message := Obj.message obj;
               Notification.is_delivered := Obj.is_delivered obj |}) in *.
  set (st1 := set_notifications st
                (<[next_notification_id st := n]> (notifications st))
                (next_notification_id st + 1)) in *.
  assert (Hno : forall q : list Job.t, q <> q ++ [job]).
  { intros q E. apply (f_equal length) in E.
    rewrite length_app in E. simpl in E. lia. }
  destruct (profiles st !! Obj.user obj) as [profile|] eqn:Hp.
  2: { injection Hsave as <-. simpl in Hq. now apply Hno in Hq. }
  destruct (Tasks._get_available_channels profile) as [|c l] eqn:Hsel.
  { injection Hsave as <-. simpl in Hq. now apply Hno in Hq. }
  injection Hsave as <-.
  destruct (broker (Admin.queue s) (job_for n (c :: l))) as [e|] eqn:Hb.
  { rewrite (task_refused broker n (c :: l) _ e) in Hq by exact Hb.
    simpl in Hq. now apply Hno in Hq. }
  rewrite (task_queued broker n (c :: l)) in Hq |- * by exact Hb.
  simpl in Hq. apply app_inv_head in Hq. injection Hq as <-. simpl Admin.db.
  assert (Hn : _get_or_create_notification user (Obj.title obj)
                 (Obj.message obj) (Some (next_notification_id st)) st1
               = (Ok (Some n), st1)).
  { unfold _get_or_create_notification, try_get, objects_get. simpl.
    destruct (Z.eqb_spec (next_notification_id st) 0); [contradiction|].
    simpl. now rewrite lookup_insert_eq. }
  assert (Hu1 : users st1 !! Obj.user obj = Some user) by exact Hu.
  assert (Hp1 : profiles st1 !! User.id user = Some profile)
    by (rewrite Hid; exact Hp).
  destruct (resolved_run settings T (Obj.user obj) (Obj.title obj)
              (Obj.message obj) (Some (c :: l))
              (Some (next_notification_id st)) st1 st1 user n Hu1 Hn)
    as (r & os & calls & Hrun & Hr & _ & _ & _ & Hshape).
  unfold run_job, job_for. simpl.
  exists r, (saved (logged st1 (Notification.id n) os (network st1 ++ calls))
               n (existsb succeeded os)), (existsb succeeded os).
  split; [exact Hrun|]. split; [|split; [exact Hr|split; [|split]]].
  - rewrite !(send_notification_resolved settings T _ _ _ _ _ _ _ _ _ Hu1 Hn).
    rewrite Hp1. simpl or_list. now rewrite Hsel.
  - destruct Hshape as [(Hf & Hs & _) | (pre & a & -> & _ & Ha & ->)].
    + rewrite (all_failed_none _ Hf), Hs. split; discriminate.
    + rewrite existsb_app. simpl. rewrite Ha, orb_true_r. split; reflexivity.
  - simpl. apply insert_insert_eq.
  - reflexivity.
Qed.

Lemma queued_job_witness :
  exists r st'' v,
    run_job Sample.full_settings Sample.all_up
      (job_for Sample.first ["email"; "sms"; "telegram"]) Sample.st1
    = (Ok r, st'')
    /\ Result.notification_id r = Some 1%Z
    /\ next_notification_id st'' = 2%Z
    /\ (Result.status r = "success" <-> v = true).
Proof.
  destruct (queued_job_runs_on_its_notification Sample.full_settings
              Sample.all_up Desk.broker_up Desk.new_obj Desk.site0
              (Desk.queued_site) Sample.alice
              (job_for Sample.first ["email"; "sms"; "telegram"])
              eq_refl ltac:(discriminate) eq_refl eq_refl eq_refl eq_refl)
    as (r & st'' & v & Hrun & _ & Hr & Hv & _ & Hnext).
  exists r, st'', v. auto.
Defined.

(** One turn of the resend loop. *)
Lemma resend_step (broker : Admin.Broker)
    (distinct : list string -> list string) (n : Notification.t)
    (rest : list Notification.t) (count : Z) (s : Admin.Site) :
  Admin.resend_each broker distinct (n :: rest) count s
  = match resend_channels distinct (Admin.db s) n with
    | [] =>
        Admin.resend_each broker distinct rest count
          (notice s Admin.ERROR
             ("Не удалось отправить ID=" +:+ pretty (Notification.id n)
              +:+ ": нет доступных каналов"))
    | c :: l =>
        match broker (Admin.queue s) (job_for n (c :: l)) with
        | None =>
            Admin.resend_each broker distinct rest (count + 1)
              (queued s (job_for n (c :: l)))
        | Some e =>
            Admin.resend_each broker distinct rest count
              (notice s Admin.ERROR
                 ("Возникла ошибка при отправке: " +:+ str e))
        end
    end.
Proof.
  cbn [Admin.resend_each].
  unfold mbind, M_bind, bind at 1. unfold Admin.on_db at 1.
  rewrite admin_selection_eq. simpl fst. simpl snd.
  replace {| Admin.db := Admin.db s; Admin.queue := Admin.queue s;
             Admin.messages := Admin.messages s |} with s by now destruct s.
  unfold resend_channels, selection, previous_channels.
  destruct (match profiles (Admin.db s) !! Notification.user n with
            | Some profile => Tasks._get_available_channels profile
            | None => []
            end) as [|c l] eqn:Hsel.
  - unfold bind at 1. unfold bind at 1. unfold Admin.on_db, Admin.logs_of.
    simpl fst. simpl snd.
    replace {| Admin.db := Admin.db s; Admin.queue := Admin.queue s;
               Admin.messages := Admin.messages s |} with s by now destruct s.
    destruct (distinct _) as [|c l] eqn:Hd; unfold mret, M_ret, ret.
    + reflexivity.
    + unfold bind.
      destruct (broker (Admin.queue s) (job_for n (c :: l))) as [e|] eqn:Hb.
      * now rewrite (task_refused broker n (c :: l) s e Hb).
      * now rewrite (task_queued broker n (c :: l) s Hb).
  - unfold bind at 1. unfold mret, M_ret, ret. unfold bind.
    destruct (broker (Admin.queue s) (job_for n (c :: l))) as [e|] eqn:Hb.
    + now rewrite (task_refused broker n (c :: l) s e Hb).
    + now rewrite (task_queued broker n (c :: l) s Hb).
Qed.

(** The resend loop never raises and leaves the database alone; the jobs
    it queues are, in the order of the selection, jobs for selected
    notifications, each with a non-empty channel list, and the count it
    returns has grown by their number. *)
Lemma resend_each_effect (broker : Admin.Broker)
    (distinct : list string -> list string) (queryset : list Notification.t) :
  forall count s,
    exists jobs s',
      Admin.resend_each broker distinct queryset count s
      = (Ok (count + Z.of_nat (length jobs))%Z, s')
      /\ Admin.db s' = Admin.db s
      /\ Admin.queue s' = Admin.queue s ++ jobs
      /\ Admin.messages s `prefix_of` Admin.messages s'
      /\ length (Admin.messages s')
         = length (Admin.messages s) + length queryset
      /\ sublist jobs
           (map (fun n => job_for n (resend_channels distinct (Admin.db s) n))
              queryset)
      /\ Forall (fun job => Job.channels job <> []) jobs.
Proof.
  induction queryset as [|n rest IH]; intros count s.
  - exists [], s. simpl. rewrite Z.add_0_r, app_nil_r.
    repeat split; auto; constructor.
  - rewrite resend_step.
    destruct (resend_channels distinct (Admin.db s) n) as [|c l] eqn:Hc.
    + destruct (IH count (notice s Admin.ERROR
                            ("Не удалось отправить ID="
                             +:+ pretty (Notification.id n)
                             +:+ ": нет доступных каналов")))
        as (jobs & s' & -> & Hdb & Hq & Hm & Hlen & Hsub & Hne).
      exists jobs, s'. simpl in *.
      split; [reflexivity|]. split; [exact Hdb|]. split; [exact Hq|].
      split; [etransitivity; [|exact Hm]; now apply prefix_app_r|].
      split; [rewrite Hlen, length_app; simpl; lia|].
      split; [now apply sublist_cons | exact Hne].
    + destruct (broker (Admin.queue s) (job_for n (c :: l))) as [e|] eqn:Hb.
      * destruct (IH count (notice s Admin.ERROR
                              ("Возникла ошибка при отправке: " +:+ str e)))
          as (jobs & s' & -> & Hdb & Hq & Hm & Hlen & Hsub & Hne).
        exists jobs, s'. simpl in *.
        split; [reflexivity|]. split; [exact Hdb|]. split; [exact Hq|].
        split; [etransitivity; [|exact Hm]; now apply prefix_app_r|].
        split; [rewrite Hlen, length_app; simpl; lia|].
        split; [now apply sublist_cons | exact Hne].
      * destruct (IH (count + 1)%Z (queued s (job_for n (c :: l))))
          as (jobs & s' & -> & Hdb & Hq & Hm & Hlen & Hsub & Hne).
        exists (job_for n (c :: l) :: jobs), s'. simpl in *.
        split.
        { replace (count + Z.of_nat (S (length jobs)))%Z
            with (count + 1 + Z.of_nat (length jobs))%Z by lia.
          reflexivity. }
        split; [exact Hdb|].
        split; [now rewrite Hq, <- app_assoc|].
        split; [etransitivity; [|exact Hm]; now apply prefix_app_r|].
        split; [rewrite Hlen, length_app; simpl; lia|].
        split; [rewrite Hc; now apply sublist_skip|].
        constructor; [discriminate | exact Hne].
Qed.

(** The resend action.  It never raises and never changes the database.
    It shows one notice per selected notification and a last one with the
    count.  It queues, in the order of the selection, at most one job per
    selected notification: a job is for the channels that the recipient's
    profile selects now or, when it selects none, for the distinct
    channels logged for that notification before; a notification left
    with no channel gets no job.  The count shown is the number of jobs
    queued. *)
Theorem resend_notification_effect (broker : Admin.Broker)
    (distinct : list string -> list string) (queryset : list Notification.t)
    (s : Admin.Site) :
  exists jobs s',
    Admin.resend_notification broker distinct queryset s = (Ok tt, s')
    /\ Admin.db s' = Admin.db s
    /\ Admin.queue s' = Admin.queue s ++ jobs
    /\ sublist jobs
         (map (fun n => job_for n (resend_channels distinct (Admin.db s) n))
            queryset)
    /\ Forall (fun job => Job.channels job <> []) jobs
    /\ length (Admin.messages s')
       = length (Admin.messages s) + length queryset + 1
    /\ last (Admin.messages s')
       = Some (Admin.INFO,
               "Поставлено в очередь повторных отправок: "
               +:+ pretty (Z.of_nat (length jobs)) +:+ " уведомлений").
Proof.
  destruct (resend_each_effect broker distinct queryset 0%Z s)
    as (jobs & s1 & Hrun & Hdb & Hq & _ & Hlen & Hsub & Hne).
  unfold Admin.resend_notification, mbind, M_bind, bind.
  rewrite Hrun. rewrite Z.add_0_l.
  eexists jobs, _. split; [reflexivity|]. simpl.
  split; [exact Hdb|]. split; [exact Hq|]. split; [exact Hsub|].
  split; [exact Hne|].
  split; [rewrite length_app, Hlen; reflexivity | apply last_snoc].
Qed.

(** A resend that falls back on the channels logged before cannot
    deliver.  When the recipient's profile has no populated field and the
    notification has log rows, the action queues a job for the distinct
    channels of those rows; a worker that runs this job makes no call,
    adds one failed row per channel of the job, returns the error
    "Не удалось доставить ни по одному каналу" and saves the
    notification as not delivered, even if it had been delivered. *)
Theorem resend_fallback_cannot_deliver (settings : Settings) (T : Transport)
    (broker : Admin.Broker) (distinct : list string -> list string)
    (n : Notification.t) (s : Admin.Site) (user : User.t)
    (profile : UserProfile.t) :
  users (Admin.db s) !! Notification.user n = Some user ->
  User.id user = Notification.user n ->
  profiles (Admin.db s) !! Notification.user n = Some profile ->
  Tasks._get_available_channels profile = [] ->
  notifications (Admin.db s) !! Notification.id n = Some n ->
  Notification.id n <> 0%Z ->
  previous_channels distinct (Admin.db s) n <> [] ->
  broker (Admin.queue s)
    (job_for n (previous_channels distinct (Admin.db s) n)) = None ->
  exists s' st' new,
    Admin.resend_notification broker distinct [n] s = (Ok tt, s')
    /\ Admin.queue s'
       = Admin.queue s
         ++ [job_for n (previous_channels distinct (Admin.db s) n)]
    /\ run_job settings T
         (job_for n (previous_channels distinct (Admin.db s) n)) (Admin.db s')
       = (Ok (error_result "Не удалось доставить ни по одному каналу"
                (Notification.id n)), st')
    /\ network st' = network (Admin.db s)
    /\ notifications st' !! Notification.id n
       = Some (Notification.with_is_delivered n false)
    /\ logs st' = logs (Admin.db s) ++ new
    /\ map NotificationLog.channel new
       = previous_channels distinct (Admin.db s) n
    /\ Forall (fun row => NotificationLog.status row = false) new.
Proof.
  intros Hu Hid Hp Hnone Hrow Hnz Hprev Hb.
  set (st := Admin.db s) in *.
  assert (Hch : resend_channels distinct st n = previous_channels distinct st n).
  { unfold resend_channels, selection. now rewrite Hp, Hnone. }
  destruct (previous_channels distinct st n) as [|c l] eqn:Hd;
    [contradiction|].
  assert (Hn : _get_or_create_notification user (Notification.title n)
                 (Notification.message n) (Some (Notification.id n)) st
               = (Ok (Some n), st)).
  { unfold _get_or_create_notification, try_get, objects_get. simpl.
    destruct (Z.eqb_spec (Notification.id n) 0); [contradiction|]. simpl.
    now rewrite Hrow. }
  destruct (no_address_outcomes settings T profile (Notification.title n)
              (Notification.message n) (c :: l) Hnone (network st))
    as [Hf Hnet].
  eexists (notice (queued s (job_for n (c :: l))) Admin.INFO _), _,
    (map (to_log (Notification.id n))
       (outcomes settings T profile (Notification.title n)
          (Notification.message n) (c :: l) (network st))).
  split.
  { unfold Admin.resend_notification, mbind, M_bind, bind.
    rewrite resend_step. fold st. rewrite Hch, Hb. reflexivity. }
  split; [reflexivity|].
  split.
  { unfold run_job, job_for. simpl.
    rewrite (send_notification_resolved settings T _ _ _ _ _ _ _ _ _ Hu Hn).
    rewrite Hid. fold st. rewrite Hp. simpl or_list. cbv iota.
    rewrite (loop_all_failed settings T n profile _ _ (c :: l) st Hf).
    rewrite Hnet. reflexivity. }
  split; [reflexivity|].
  split; [unfold saved, set_notifications; cbn [notifications];
          apply lookup_insert_eq|].
  split; [reflexivity|].
  split; [rewrite to_log_channels; apply outcomes_channels|].
  apply all_failed_rows. exact Hf.
Qed.

Lemma resend_fallback_witness :
  exists s' st',
    Admin.resend_notification Desk.broker_up Desk.distinct [Desk.sent]
      Desk.site_bare = (Ok tt, s')
    /\ Admin.queue s' = [job_for Desk.sent ["sms"; "email"]]
    /\ run_job Sample.full_settings Sample.all_up
         (job_for Desk.sent ["sms"; "email"]) (Admin.db s')
       = (Ok (error_result "Не удалось доставить ни по одному каналу" 1), st')
    /\ network st' = []
    /\ notifications st' !! 1%Z
       = Some (Notification.with_is_delivered Desk.sent false).
Proof.
  destruct (resend_fallback_cannot_deliver Sample.full_settings Sample.all_up
              Desk.broker_up Desk.distinct Desk.sent Desk.site_bare
              Sample.alice Desk.bare_profile
              eq_refl eq_refl eq_refl eq_refl eq_refl ltac:(discriminate)
              ltac:(discriminate) eq_refl)
    as (s' & st' & new & Hrun & Hq & Hjob & Hw & Hn & _).
  exists s', st'. auto.
Defined.

Lemma missing_profile_witness :
  exists st',
    send_notification Sample.full_settings Sample.all_up 1 "t" "m"
      (Some ["email"]) (Some 1%Z) Desk.st_orphan
    = (Ok (error_result "Профиль пользователя не найден" 1), st')
    /\ logs st' = logs Desk.st_orphan
    /\ notifications st' !! 1%Z
       = Some (Notification.with_is_delivered Desk.sent false).
Proof.
  destruct (missing_profile_resets_the_flag Sample.full_settings Sample.all_up
              1 "t" "m" (Some ["email"]) (Some 1%Z) Desk.st_orphan
              Desk.st_orphan Sample.alice Desk.sent eq_refl eq_refl eq_refl)
    as (st' & Hrun & Hl & _ & _ & Hn).
  exists st'. auto.
Defined.

Lemma sample_keyed : keyed Sample.st1.
Proof.
  intros k n. unfold Sample.st1. simpl.
  rewrite lookup_insert_Some, lookup_empty.
  intros [[<- <-] | [_ [=]]]. split; reflexivity.
Defined.

Lemma run_keeps_keys_witness :
  keyed (snd (send_notification Sample.full_settings Sample.mail_down 1 "t"
                "m" None None Sample.st1)).
Proof.
  exact (proj1 (run_keeps_keys Sample.full_settings Sample.mail_down 1 "t" "m"
                  None None Sample.st1 _ _ sample_keyed eq_refl)).
Defined.
